(** * AAYUSExYTDLP: the download service of [app.py]

    A shallow embedding of the Flask application [src/app.py]: the API-key
    decorator, the URL validator, the probe with its duration ceiling, the
    format selector of the download endpoint and the two JSON responses.

    Conventions of the embedding.
    - A Python [dict] with string keys is a [gmap string _]; [d.get(k)] is a
      lookup with default.
    - The values the handlers read out of the extractor's documents are
      [None], integers and strings ([scalar]); a document may also hold lists
      of scalars or of dictionaries ([pyval]).  Numbers are integers: the
      handlers only compare and print them.
    - Strings are [string]s over 8-bit characters.
    - A raised exception is the text [str(e)] the handlers print ([pyexn]).
    - The extraction library and [urllib.parse.unquote] are external: they
      are the two fields of a [World].  Every call to the extractor is
      appended to a call log, so that "no resolve-mode call was made" is a
      statement about the log.  Logging through [logger] is not modelled. *)

From Stdlib Require Import ZArith String Ascii Bool Lia.
From Stdlib Require Import Sorting.Permutation Sorting.Sorted.
From stdpp Require Import gmap strings list fin_maps pretty.

Local Open Scope string_scope.
Local Open Scope Z_scope.

(** ** Python values *)

Inductive scalar :=
| PNone
| PInt (n : Z)
| PStr (s : string).

Inductive item :=
| IScalar (v : scalar)
| IDict (d : gmap string scalar).

Inductive pyval :=
| PScalar (v : scalar)
| PList (l : list item).

(** [str(e)] of a raised exception. *)
Record pyexn := Exn { exn_text : string }.

(** [d.get(k)] and [d.get(k, dflt)] on a format descriptor. *)
Definition get (d : gmap string scalar) (k : string) : scalar :=
  default PNone (d !! k).

Definition get_def (d : gmap string scalar) (k : string) (dflt : scalar) : scalar :=
  default dflt (d !! k).

(** The same on a metadata document. *)
Definition iget (d : gmap string pyval) (k : string) : pyval :=
  default (PScalar PNone) (d !! k).

Definition iget_def (d : gmap string pyval) (k : string) (dflt : pyval) : pyval :=
  default dflt (d !! k).

(** [v == 'lit'] for a string literal; [v != 'lit'] is its negation. *)
Definition eq_str (v : scalar) (lit : string) : bool :=
  match v with
  | PStr s => String.eqb s lit
  | _ => false
  end.

(** Truth value of a scalar, as in [if v:]. *)
Definition truthy (v : scalar) : bool :=
  match v with
  | PNone => false
  | PInt n => negb (Z.eqb n 0)
  | PStr s => negb (String.eqb s "")
  end.

Definition truthy_val (v : pyval) : bool :=
  match v with
  | PScalar s => truthy s
  | PList l => match l with [] => false | _ => true end
  end.

(** [type(v).__name__] *)
Definition tyname (v : scalar) : string :=
  match v with
  | PNone => "NoneType"
  | PInt _ => "int"
  | PStr _ => "str"
  end.

Definition tyname_val (v : pyval) : string :=
  match v with
  | PScalar s => tyname s
  | PList _ => "list"
  end.

(** [str(v)], as an f-string renders a scalar. *)
Definition py_str (v : scalar) : string :=
  match v with
  | PNone => "None"
  | PInt n => pretty n
  | PStr s => s
  end.

(** The text of the [TypeError] of an ordering comparison. *)
Definition cmp_error (op l r : string) : pyexn :=
  Exn ("'" ++ op ++ "' not supported between instances of '"
           ++ l ++ "' and '" ++ r ++ "'").

(** [a < b]: integers and strings are ordered among themselves, anything
    else raises [TypeError]. *)
Definition py_lt (a b : scalar) : pyexn + bool :=
  match a, b with
  | PInt x, PInt y => inr (Z.ltb x y)
  | PStr s, PStr t => inr (String.ltb s t)
  | _, _ => inl (cmp_error "<" (tyname a) (tyname b))
  end.

(** ** The format selector (lines 159-202 of [youtube_downloader]) *)

(** The kind filter of the loop over [formats]. *)
Definition keep (format_type : string) (f : gmap string scalar) : bool :=
  if String.eqb format_type "mp3"
  then negb (eq_str (get f "acodec") "none") && eq_str (get f "vcodec") "none"
  else negb (eq_str (get f "vcodec") "none").

(** [lambda x: x.get('height', 0)] and [lambda x: x.get('abr', 0)] *)
Definition height_key (f : gmap string scalar) : scalar := get_def f "height" (PInt 0).
Definition abr_key (f : gmap string scalar) : scalar := get_def f "abr" (PInt 0).

Definition sort_key (format_type : string) : gmap string scalar → scalar :=
  if String.eqb format_type "mp3" then abr_key else height_key.

(** [list.sort(key=..., reverse=True)]: a stable sort that only uses [<] on
    the keys.  [insert_desc x l] puts [x], which stood before all of [l] in
    the source list, in front of the first element whose key is not greater
    than its own.  On scalar keys the sort raises exactly when two keys of
    the list cannot be compared; which pair the interpreter meets first, and
    so the operand order in the text of the error, is not modelled. *)
Section Sort.
Context {A : Type} (key : A → scalar).

Fixpoint insert_desc (x : A) (l : list A) : pyexn + list A :=
  match l with
  | [] => inr [x]
  | y :: l' =>
      match py_lt (key x) (key y) with
      | inl e => inl e
      | inr true =>
          match insert_desc x l' with
          | inl e => inl e
          | inr r => inr (y :: r)
          end
      | inr false => inr (x :: l)
      end
  end.

Fixpoint sort_desc (l : list A) : pyexn + list A :=
  match l with
  | [] => inr []
  | x :: l' =>
      match sort_desc l' with
      | inl e => inl e
      | inr r => insert_desc x r
      end
  end.
End Sort.

(** [if fmt.get('url'):] *)
Definition has_url (f : gmap string scalar) : bool := truthy (get f "url").

(** The [link_info] dictionary built for one descriptor. *)
Definition link_info (format_type : string) (f : gmap string scalar) : gmap string pyval :=
  let base : gmap string pyval :=
    <["filesize" := PScalar (get f "filesize")]>
    (<["quality" := PScalar (get_def f "format_note" (PStr "Unknown"))]>
    (<["ext" := PScalar (get f "ext")]>
    (<["url" := PScalar (get f "url")]>
    (<["format_id" := PScalar (get f "format_id")]> ∅)))) in
  if negb (String.eqb format_type "mp3") then
    <["acodec" := PScalar (get f "acodec")]>
    (<["vcodec" := PScalar (get f "vcodec")]>
    (<["fps" := PScalar (get f "fps")]>
    (<["resolution" :=
         PScalar (PStr (py_str (get_def f "width" (PStr "Unknown")) ++ "x"
                        ++ py_str (get_def f "height" (PStr "Unknown"))))]> base)))
  else
    <["sample_rate" := PScalar (get f "asr")]>
    (<["bitrate" := PScalar (get f "abr")]> base).

(** The descriptors that end up in [download_links], before they are turned
    into [link_info] dictionaries: kind filter, sort, [[:5]], URL guard. *)
Definition select_formats (format_type : string) (formats : list (gmap string scalar))
  : pyexn + list (gmap string scalar) :=
  match sort_desc (sort_key format_type) (List.filter (keep format_type) formats) with
  | inl e => inl e
  | inr sorted => inr (List.filter has_url (take 5 sorted))
  end.

(** ** The world outside the handlers *)

(** The options dictionary handed to [yt_dlp.YoutubeDL]; an absent key is
    [None]. *)
Record ydl_opts := YdlOpts {
  opt_format : string;
  opt_extractaudio : option bool;
  opt_audioformat : option string;
  opt_quiet : bool;
  opt_no_warnings : bool
}.

(** One call [YoutubeDL(opts).extract_info(url, download=False)]. *)
Record call := Call { call_opts : ydl_opts; call_url : string }.

(** The external collaborators: percent-decoding and the extractor.  The
    extractor sees the calls made before in the same request, so that it may
    answer two calls differently; it returns a metadata document or raises. *)
Record World := {
  unquote : string → string;
  extract_info : list call → ydl_opts → string → pyexn + gmap string pyval
}.

(** Handler code runs in [M]: it may raise, and it appends to the call log. *)
Definition M (A : Type) : Type := list call → (pyexn + A) * list call.

Definition ret {A} (a : A) : M A := λ log, (inr a, log).

Definition lift {A} (r : pyexn + A) : M A := λ log, (r, log).

Definition bind {A B} (m : M A) (k : A → M B) : M B :=
  λ log, match m log with
         | (inl e, log') => (inl e, log')
         | (inr a, log') => k a log'
         end.

(** [try: m  except Exception as e: h e] *)
Definition try_except {A} (m : M A) (h : pyexn → M A) : M A :=
  λ log, match m log with
         | (inl e, log') => h e log'
         | (inr a, log') => (inr a, log')
         end.

Definition call_extract (w : World) (opts : ydl_opts) (url : string)
  : M (gmap string pyval) :=
  λ log, (extract_info w log opts url, app log [Call opts url]).

#[global] Instance M_ret : MRet M := @ret.
#[global] Instance M_bind : MBind M := λ A B k m, bind m k.

(** Sequencing of pure computations that may raise. *)
Definition and_then {A B} (r : pyexn + A) (k : A → pyexn + B) : pyexn + B :=
  match r with
  | inl e => inl e
  | inr a => k a
  end.

(** ** Requests and responses *)

(** [request.args]: the query parameters in order; [get] returns the first
    value of a key. *)
Record request := Request { args : list (string * string) }.

Fixpoint assoc (k : string) (l : list (string * string)) : option string :=
  match l with
  | [] => None
  | (k', v) :: l' => if String.eqb k' k then Some v else assoc k l'
  end.

Definition args_get (req : request) (k : string) : option string :=
  assoc k (args req).

Definition args_get_def (req : request) (k dflt : string) : string :=
  default dflt (args_get req k).

(** Truth value of an optional string ([None] and [''] are false). *)
Definition nonempty (o : option string) : bool :=
  match o with
  | Some (String _ _) => true
  | _ => false
  end.

(** The JSON bodies the handlers produce: [Failed error] is
    [{'error': error, 'status': 'failed'}]; [DownloadOk] and [InfoOk] are the
    two [{'status': 'success', ...}] objects of lines 213-228 and 270-286. *)
Inductive body :=
| Failed (error : string)
| DownloadOk (video_info : gmap string pyval)
             (download_links : list (gmap string pyval))
             (requested_format requested_quality : string)
| InfoOk (video_info : gmap string pyval).

Record response := Response { resp_body : body; status_code : Z }.

(** [jsonify(d)] alone answers with status 200. *)
Definition ok (b : body) : response := Response b 200.

(** ** Configuration *)

Definition API_KEY : string := "AAYUSEXDOWNLOADER".
Definition MAX_DURATION : Z := 3600.

(** ** [require_api_key] *)

Definition require_api_key (f : request → M response) (req : request) : M response :=
  let api_key := args_get req "apikey" in
  if negb (nonempty api_key) || negb (bool_decide (api_key = Some API_KEY))
  then ret (Response (Failed "Invalid or missing API key") 401)
  else f req.

(** ** [extract_video_id] *)

(** [[^&\n?#]] *)
Definition id_char (c : ascii) : bool :=
  negb (Ascii.eqb c "&" || Ascii.eqb c "010" || Ascii.eqb c "?" || Ascii.eqb c "#")%char.

(** The longest run of [id_char]s at the head: the greedy [([^&\n?#]+)]. *)
Fixpoint run_of_id_chars (s : string) : string :=
  match s with
  | String c s' => if id_char c then String c (run_of_id_chars s') else ""
  | EmptyString => ""
  end.

Fixpoint drop_chars (n : nat) (s : string) : string :=
  match n, s with
  | S n', String _ s' => drop_chars n' s'
  | _, _ => s
  end.

(** A match of [lit([^&\n?#]+)] at the head of [s]: its group 1. *)
Definition match_lit (lit s : string) : option string :=
  if String.prefix lit s
  then match run_of_id_chars (drop_chars (String.length lit) s) with
       | "" => None
       | g => Some g
       end
  else None.

(** A match of [(?:lit1|lit2|...)([^&\n?#]+)] at the head of [s]: the
    alternatives are tried in order. *)
Fixpoint match_alts (lits : list string) (s : string) : option string :=
  match lits with
  | [] => None
  | lit :: lits' =>
      match match_lit lit s with
      | Some g => Some g
      | None => match_alts lits' s
      end
  end.

(** [re.search]: the leftmost position with a match. *)
Fixpoint re_search (lits : list string) (s : string) : option string :=
  match match_alts lits s with
  | Some g => Some g
  | None =>
      match s with
      | String _ s' => re_search lits s'
      | EmptyString => None
      end
  end.

Definition patterns : list (list string) :=
  [ ["youtube.com/watch?v="; "youtu.be/"; "youtube.com/embed/"];
    ["youtube.com/v/"] ].

Fixpoint first_match (ps : list (list string)) (url : string) : option string :=
  match ps with
  | [] => None
  | p :: ps' =>
      match re_search p url with
      | Some g => Some g
      | None => first_match ps' url
      end
  end.

Definition extract_video_id (url : string) : option string :=
  first_match patterns url.

(** ** [get_video_info] *)

Definition probe_opts : ydl_opts :=
  {| opt_format := "best"; opt_extractaudio := Some false;
     opt_audioformat := None; opt_quiet := true; opt_no_warnings := true |}.

Definition too_long (duration : Z) : string :=
  "Video too long (" ++ pretty duration ++ "s). Maximum allowed: "
     ++ pretty MAX_DURATION ++ "s".

(** Returns the pair [(info, error)]. *)
Definition get_video_info (w : World) (url : string)
  : M (option (gmap string pyval) * option string) :=
  try_except
    (info ← call_extract w probe_opts url;
     let duration := iget_def info "duration" (PScalar (PInt 0)) in
     match duration with
     | PScalar (PInt d) =>
         if Z.ltb MAX_DURATION d
         then ret (None, Some (too_long d))
         else ret (Some info, None)
     | _ => lift (inl (cmp_error ">" (tyname_val duration) "int"))
     end)
    (λ e, ret (None, Some (exn_text e))).

(** ** [youtube_downloader] *)

(** [str.lower()] on the letters [A]-[Z]. *)
Definition lower_char (c : ascii) : ascii :=
  let n := N_of_ascii c in
  if (N.leb 65 n && N.leb n 90)%bool then ascii_of_N (n + 32) else c.

Fixpoint lower (s : string) : string :=
  match s with
  | String c s' => String (lower_char c) (lower s')
  | EmptyString => EmptyString
  end.

(** [s[:-1]] *)
Fixpoint strip_last (s : string) : string :=
  match s with
  | String c (String _ _ as s') => String c (strip_last s')
  | _ => EmptyString
  end.

Definition tiers : list string :=
  ["144p"; "240p"; "360p"; "480p"; "720p"; "1080p"].

(** The [format_selector] of lines 140-146. *)
Definition format_selector (quality : string) : string :=
  if String.eqb quality "best" then "best"
  else if existsb (String.eqb quality) tiers
       then "best[height<=" ++ strip_last quality ++ "]"
       else "best".

(** The [ydl_opts] of the second extraction (lines 130-152). *)
Definition resolve_opts (format_type quality : string) : ydl_opts :=
  if String.eqb format_type "mp3" then
    {| opt_format := "bestaudio/best"; opt_extractaudio := Some true;
       opt_audioformat := Some "mp3"; opt_quiet := true; opt_no_warnings := true |}
  else
    {| opt_format := format_selector quality; opt_extractaudio := None;
       opt_audioformat := None; opt_quiet := true; opt_no_warnings := true |}.

Definition no_attribute_get (ty : string) : pyexn :=
  Exn ("'" ++ ty ++ "' object has no attribute 'get'").

(** [for fmt in formats: ... fmt.get(...)]: what the loop iterates over.  A
    list entry that is no dictionary has no [get]; a string iterates over
    its characters, [None] and integers do not iterate. *)
Fixpoint dicts_of (l : list item) : pyexn + list (gmap string scalar) :=
  match l with
  | [] => inr []
  | IDict d :: l' =>
      match dicts_of l' with
      | inl e => inl e
      | inr r => inr (d :: r)
      end
  | IScalar v :: _ => inl (no_attribute_get (tyname v))
  end.

Definition as_formats (formats : pyval) : pyexn + list (gmap string scalar) :=
  match formats with
  | PList l => dicts_of l
  | PScalar (PStr "") => inr []
  | PScalar (PStr _) => inl (no_attribute_get "str")
  | PScalar v => inl (Exn ("'" ++ tyname v ++ "' object is not iterable"))
  end.

(** The one link of the single-URL fallback (lines 206-211). *)
Definition single_link (format_type quality : string) (info : gmap string pyval)
  : gmap string pyval :=
  <["quality" := PScalar (PStr quality)]>
  (<["ext" := PScalar (PStr format_type)]>
  (<["url" := iget_def info "url" (PScalar (PStr ""))]>
  (<["format_id" := PScalar (PStr "single")]> ∅))).

(** [download_links], from the catalog or from the single-URL fallback. *)
Definition download_links (format_type quality : string) (info : gmap string pyval)
  : pyexn + list (gmap string pyval) :=
  match info !! "formats" with
  | Some formats =>
      and_then (as_formats formats) (λ fs,
      and_then (select_formats format_type fs) (λ sel,
      inr (map (link_info format_type) sel)))
  | None => inr [single_link format_type quality info]
  end.

Definition not_subscriptable (ty : string) : pyexn :=
  Exn ("'" ++ ty ++ "' object is not subscriptable").

Definition double_quote : string := String (ascii_of_N 34) EmptyString.

(** [info.get('description', '')[:500] + '...' if info.get('description', '') else ''] *)
Definition trimmed_description (info : gmap string pyval) : pyexn + pyval :=
  let d := iget_def info "description" (PScalar (PStr "")) in
  if truthy_val d then
    match d with
    | PScalar (PStr s) => inr (PScalar (PStr (substring 0 500 s ++ "...")))
    | PScalar v => inl (not_subscriptable (tyname v))
    | PList _ =>
        inl (Exn ("can only concatenate list (not " ++ double_quote ++ "str"
                    ++ double_quote ++ ") to list"))
    end
  else inr (PScalar (PStr "")).

Definition download_video_info (info : gmap string pyval) (description : pyval)
  : gmap string pyval :=
  <["upload_date" := iget info "upload_date"]>
  (<["thumbnail" := iget info "thumbnail"]>
  (<["description" := description]>
  (<["view_count" := iget info "view_count"]>
  (<["duration" := iget info "duration"]>
  (<["uploader" := iget info "uploader"]>
  (<["title" := iget info "title"]>
  (<["id" := iget info "id"]> ∅))))))).

Definition bad_request (error : string) : response := Response (Failed error) 400.

Definition youtube_downloader (w : World) (req : request) : M response :=
  try_except
    (let url := args_get req "url" in
     let format_type := lower (args_get_def req "format" "mp4") in
     let quality := lower (args_get_def req "quality" "best") in
     if negb (nonempty url) then ret (bad_request "URL parameter is required")
     else
       let url := unquote w (default "" url) in
       let video_id := extract_video_id url in
       if negb (nonempty video_id) then ret (bad_request "Invalid YouTube URL")
       else
         '(info, error) ← get_video_info w url;
         if nonempty error then ret (bad_request (default "" error))
         else
           info ← call_extract w (resolve_opts format_type quality) url;
           links ← lift (download_links format_type quality info);
           description ← lift (trimmed_description info);
           ret (ok (DownloadOk (download_video_info info description)
                               links format_type quality)))
    (λ e, ret (Response (Failed ("Failed to process video: " ++ exn_text e)) 500)).

(** ** [video_info] *)

(** [v[:n]] *)
Definition slice_to (n : nat) (v : pyval) : pyexn + pyval :=
  match v with
  | PList l => inr (PList (take n l))
  | PScalar (PStr s) => inr (PScalar (PStr (substring 0 n s)))
  | PScalar v => inl (not_subscriptable (tyname v))
  end.

Definition none_has_no_get : pyexn :=
  Exn "'NoneType' object has no attribute 'get'".

Definition full_video_info (info : gmap string pyval) (tags : pyval)
  : gmap string pyval :=
  <["webpage_url" := iget info "webpage_url"]>
  (<["tags" := tags]>
  (<["categories" := iget_def info "categories" (PList [])]>
  (<["upload_date" := iget info "upload_date"]>
  (<["thumbnail" := iget info "thumbnail"]>
  (<["description" := iget_def info "description" (PScalar (PStr ""))]>
  (<["like_count" := iget info "like_count"]>
  (<["view_count" := iget info "view_count"]>
  (<["duration" := iget info "duration"]>
  (<["uploader" := iget info "uploader"]>
  (<["title" := iget info "title"]>
  (<["id" := iget info "id"]> ∅))))))))))).

Definition video_info (w : World) (req : request) : M response :=
  try_except
    (let url := args_get req "url" in
     if negb (nonempty url) then ret (bad_request "URL parameter is required")
     else
       let url := unquote w (default "" url) in
       let video_id := extract_video_id url in
       if negb (nonempty video_id) then ret (bad_request "Invalid YouTube URL")
       else
         '(info, error) ← get_video_info w url;
         if nonempty error then ret (bad_request (default "" error))
         else
           match info with
           | None => lift (inl none_has_no_get)
           | Some info =>
               tags ← lift (slice_to 10 (iget_def info "tags" (PList [])));
               ret (ok (InfoOk (full_video_info info tags)))
           end)
    (λ e, ret (Response (Failed ("Failed to get video info: " ++ exn_text e)) 500)).

(** ** The routes *)

(** A request is served with an empty call log; an exception that escapes a
    handler reaches [internal_error]. *)
Definition serve (handler : request → M response) (req : request)
  : response * list call :=
  match handler req [] with
  | (inr r, log) => (r, log)
  | (inl _, log) => (Response (Failed "Internal server error") 500, log)
  end.

(** [/api/youtube-downloader] and [/api/video-info] *)
Definition route_youtube_downloader (w : World) : request → M response :=
  require_api_key (youtube_downloader w).

Definition route_video_info (w : World) : request → M response :=
  require_api_key (video_info w).

(** ** The sort on integer keys *)

(** [sort_desc] as it runs when every key is an integer: [rank] is the
    integer under the key. *)
Section SortZ.
Context {A : Type} (rank : A → Z).

Fixpoint insert_z (x : A) (l : list A) : list A :=
  match l with
  | [] => [x]
  | y :: l' => if Z.ltb (rank x) (rank y) then y :: insert_z x l' else x :: l
  end.

Definition sort_z (l : list A) : list A := foldr insert_z [] l.

Definition descending : list A → Prop :=
  StronglySorted (λ a b, rank b ≤ rank a).
End SortZ.

(** The ranking the selector uses: the height of a descriptor for a video
    request and its average bitrate for an [mp3] request, zero when the
    descriptor has no such key. *)
Definition rank_field (format_type : string) : string :=
  if String.eqb format_type "mp3" then "abr" else "height".

Definition rank_of (format_type : string) (f : gmap string scalar) : Z :=
  match f !! rank_field format_type with
  | Some (PInt n) => n
  | _ => 0
  end.

(** The ranking value of a descriptor is a number, or is missing. *)
Definition rankable (format_type : string) (f : gmap string scalar) : Prop :=
  f !! rank_field format_type = None
  ∨ ∃ n, f !! rank_field format_type = Some (PInt n).

(** The selection as the specification words it: kind filter, then the URL
    guard, then the sort, then the first five. *)
Definition ranked_top5_spec (format_type : string) (formats : list (gmap string scalar))
  : pyexn + list (gmap string scalar) :=
  match sort_desc (sort_key format_type)
          (List.filter has_url (List.filter (keep format_type) formats)) with
  | inl e => inl e
  | inr sorted => inr (take 5 sorted)
  end.

(** ** Sample data *)

Definition video (id : string) (height : Z) : gmap string scalar :=
  <["url" := PStr ("https://cdn.example/" ++ id)]>
  (<["height" := PInt height]>
  (<["acodec" := PStr "mp4a.40.2"]>
  (<["vcodec" := PStr "avc1.64001F"]>
  (<["format_id" := PStr id]> ∅)))).

Definition audio (id : string) (abr : Z) : gmap string scalar :=
  <["url" := PStr ("https://cdn.example/" ++ id)]>
  (<["abr" := PInt abr]>
  (<["acodec" := PStr "opus"]>
  (<["vcodec" := PStr "none"]>
  (<["format_id" := PStr id]> ∅)))).

Definition without_url (f : gmap string scalar) : gmap string scalar :=
  delete "url" f.

(** Eight video descriptors of heights 144, 240, 360, 480, 720, 720, 1080
    and 0; in [catalog_top_missing] the 1080 one has no URL, in
    [catalog_bottom_missing] the one of height 0. *)
Definition catalog_top_missing : list (gmap string scalar) :=
  [ video "a" 144; video "b" 240; video "c" 360; video "d" 480;
    video "e" 720; video "f" 720; without_url (video "g" 1080); video "h" 0 ].

Definition catalog_bottom_missing : list (gmap string scalar) :=
  [ video "a" 144; video "b" 240; video "c" 360; video "d" 480;
    video "e" 720; video "f" 720; video "g" 1080; without_url (video "h" 0) ].

Definition audio_catalog : list (gmap string scalar) :=
  [ audio "x" 64; audio "y" 128; audio "z" 192 ].

(** A fake extractor: the first call of a request answers [probe], every
    later one [resolve]; percent-decoding leaves the sample URL as it is. *)
Definition fake (probe resolve : pyexn + gmap string pyval) : World :=
  {| unquote := λ s, s;
     extract_info := λ log _ _, match log with [] => probe | _ => resolve end |}.

Definition sample_url : string := "https://youtu.be/dQw4w9WgXcQ".

Definition sample_request (format quality : string) : request :=
  Request [ ("url", sample_url); ("apikey", API_KEY);
            ("format", format); ("quality", quality) ].

Definition doc (duration : Z) : gmap string pyval :=
  <["duration" := PScalar (PInt duration)]>
  (<["title" := PScalar (PStr "Sample")]>
  (<["id" := PScalar (PStr "dQw4w9WgXcQ")]> ∅)).

Definition with_formats (l : list (gmap string scalar)) (d : gmap string pyval)
  : gmap string pyval :=
  <["formats" := PList (map IDict l)]> d.

(** A document without catalog, as the fallback branch expects it. *)
Definition single_doc : gmap string pyval :=
  <["url" := PScalar (PStr "https://cdn.example/single")]> (doc 212).

Definition tagged_doc (tags : list string) : gmap string pyval :=
  <["tags" := PList (map (λ t, IScalar (PStr t)) tags)]> (doc 212).

Definition twelve_tags : list string :=
  ["t1"; "t2"; "t3"; "t4"; "t5"; "t6"; "t7"; "t8"; "t9"; "t10"; "t11"; "t12"].

Definition wrong_key_request : request :=
  Request [("url", sample_url); ("apikey", "aayusexdownloader")].

(** A response with the echoed [requested_format] blanked. *)
Definition erase_requested_format (b : body) : body :=
  match b with
  | DownloadOk vi links _ quality => DownloadOk vi links "" quality
  | _ => b
  end.

(** ** Well-formed requests *)

(** A request that passes the API-key check and the URL validation; [url] is
    the decoded URL the extractor is called with. *)
Definition valid_request (w : World) (req : request) (url : string) : Prop :=
  args_get req "apikey" = Some API_KEY
  ∧ ∃ raw, args_get req "url" = Some raw ∧ raw ≠ ""
           ∧ url = unquote w raw ∧ is_Some (extract_video_id url).

(** The requested format and quality as the handler reads them. *)
Definition format_of (req : request) : string :=
  lower (args_get_def req "format" "mp4").

Definition quality_of (req : request) : string :=
  lower (args_get_def req "quality" "best").

(** The response of the download endpoint once the second extraction has
    returned [info] (lines 159-230 and the [except] of line 232). *)
Definition respond (format_type quality : string) (info : gmap string pyval)
  : response :=
  match download_links format_type quality info with
  | inl e => Response (Failed ("Failed to process video: " ++ exn_text e)) 500
  | inr links =>
      match trimmed_description info with
      | inl e => Response (Failed ("Failed to process video: " ++ exn_text e)) 500
      | inr description =>
          ok (DownloadOk (download_video_info info description)
                         links format_type quality)
      end
  end.

(** ** Vocabulary for the URL validator *)

(** The four literals of [patterns], in the order they are tried. *)
Definition literals : list string := concat patterns.

(** Every character of [s] is in the class [[^&\n?#]]. *)
Fixpoint id_chars (s : string) : bool :=
  match s with
  | String c s' => id_char c && id_chars s'
  | EmptyString => true
  end.

(** [s] is empty or starts with one of [&], newline, [?], [#]. *)
Definition ends_id (s : string) : Prop :=
  s = "" ∨ ∃ c t, s = String c t ∧ id_char c = false.

(** The character [c] does not occur in [s]. *)
Fixpoint lacks (c : ascii) (s : string) : bool :=
  match s with
  | String c' s' => negb (Ascii.eqb c' c) && lacks c s'
  | EmptyString => true
  end.

(** A response with the echoed [requested_quality] blanked. *)
Definition erase_requested_quality (b : body) : body :=
  match b with
  | DownloadOk vi links format _ => DownloadOk vi links format ""
  | _ => b
  end.

(** * Properties *)

(** ** The sort *)

Section SortFacts.
Context {A : Type} (key : A → scalar) (rank : A → Z).

#[local] Abbreviation insert_z := (insert_z rank).
#[local] Abbreviation sort_z := (sort_z rank).
#[local] Abbreviation descending := (descending rank).
#[local] Abbreviation ranked := (λ x, key x = PInt (rank x)).

Lemma insert_desc_ranked x l :
  ranked x → Forall ranked l → insert_desc key x l = inr (insert_z x l).
Proof.
  intros Hx Hl. induction Hl as [|y l Hy Hl IH]; simpl; [done|].
  rewrite Hx, Hy. simpl. destruct (Z.ltb (rank x) (rank y)); [|done].
  by rewrite IH.
Qed.

Lemma insert_z_perm x l : Permutation (x :: l) (insert_z x l).
Proof.
  induction l as [|y l IH]; simpl; [done|].
  destruct (Z.ltb (rank x) (rank y)); [|done].
  rewrite perm_swap. by constructor.
Qed.

Lemma sort_z_perm l : Permutation l (sort_z l).
Proof.
  induction l as [|x l IH]; simpl; [done|].
  rewrite <- insert_z_perm. by constructor.
Qed.

Lemma Forall_sort_z (P : A → Prop) l : Forall P l → Forall P (sort_z l).
Proof. intros H. by rewrite <- (sort_z_perm l). Qed.

Lemma sort_desc_ranked l :
  Forall ranked l → sort_desc key l = inr (sort_z l).
Proof.
  induction 1 as [|x l Hx Hl IH]; simpl; [done|].
  rewrite IH. apply insert_desc_ranked; [done|]. by apply Forall_sort_z.
Qed.

Lemma insert_z_descending x l : descending l → descending (insert_z x l).
Proof.
  induction 1 as [|y l Hs IH Hy]; simpl.
  - repeat constructor.
  - destruct (Z.ltb_spec (rank x) (rank y)) as [Hlt|Hge].
    + constructor; [done|]. rewrite <- insert_z_perm.
      constructor; [lia|done].
    + constructor; [by constructor|].
      constructor; [done|].
      eapply Forall_impl; [exact Hy|]. simpl. intros; lia.
Qed.

Lemma sort_z_descending l : descending (sort_z l).
Proof.
  induction l as [|x l IH]; simpl; [constructor|]. by apply insert_z_descending.
Qed.

(** Stability, in its strong form: sorting commutes with taking a
    sub-list by a predicate. *)
Lemma filter_insert_z (p : A → bool) x l :
  descending l →
  List.filter p (insert_z x l)
  = if p x then insert_z x (List.filter p l) else List.filter p l.
Proof.
  induction 1 as [|y l Hs IH Hy]; simpl.
  - by destruct (p x).
  - destruct (Z.ltb_spec (rank x) (rank y)) as [Hlt|Hge]; simpl.
    + rewrite IH. destruct (p x), (p y); simpl; try done.
      destruct (Z.ltb_spec (rank x) (rank y)); [done|lia].
    + destruct (p x) eqn:Hpx; simpl; [|done].
      destruct (p y) eqn:Hpy; simpl.
      * destruct (Z.ltb_spec (rank x) (rank y)); [lia|done].
      * clear IH Hpy. induction Hy as [|z l Hz Hy IH']; simpl; [done|].
        apply StronglySorted_inv in Hs as [Hs _].
        destruct (p z); simpl.
        -- destruct (Z.ltb_spec (rank x) (rank z)); [lia|done].
        -- by apply IH'.
Qed.

Lemma filter_sort_z (p : A → bool) l :
  List.filter p (sort_z l) = sort_z (List.filter p l).
Proof.
  induction l as [|x l IH]; simpl; [done|].
  rewrite filter_insert_z by apply sort_z_descending.
  rewrite IH. by destruct (p x).
Qed.

Lemma sort_z_constant k l :
  Forall (λ x, rank x = k) l → sort_z l = l.
Proof.
  induction 1 as [|x l Hx Hl IH]; simpl; [done|].
  rewrite IH. destruct Hl as [|y l Hy Hl]; simpl; [done|].
  rewrite Hx, Hy, Z.ltb_irrefl. done.
Qed.

Lemma sort_z_stable k l :
  List.filter (λ x, Z.eqb (rank x) k) (sort_z l)
  = List.filter (λ x, Z.eqb (rank x) k) l.
Proof.
  rewrite filter_sort_z. apply sort_z_constant with k.
  apply Forall_forall. intros x Hx%list_elem_of_In%filter_In. lia.
Qed.
End SortFacts.

(** ** The kind filter *)

Lemma eq_str_get (f : gmap string scalar) k lit :
  eq_str (get f k) lit = true ↔ f !! k = Some (PStr lit).
Proof.
  unfold get. destruct (f !! k) as [[| |s]|]; simpl; try (split; [done|congruence]).
  rewrite String.eqb_eq. split; congruence.
Qed.

Lemma eq_str_get_false (f : gmap string scalar) k lit :
  eq_str (get f k) lit = false ↔ f !! k ≠ Some (PStr lit).
Proof.
  rewrite <- eq_str_get. destruct (eq_str (get f k) lit); split; congruence.
Qed.

Lemma keep_mp3 (f : gmap string scalar) :
  keep "mp3" f = true ↔
  f !! "vcodec" = Some (PStr "none") ∧ f !! "acodec" ≠ Some (PStr "none").
Proof.
  unfold keep. rewrite String.eqb_refl, andb_true_iff, negb_true_iff.
  rewrite eq_str_get, eq_str_get_false. tauto.
Qed.

Lemma keep_video format_type (f : gmap string scalar) :
  format_type ≠ "mp3" →
  keep format_type f = true ↔ f !! "vcodec" ≠ Some (PStr "none").
Proof.
  intros Hne. unfold keep. apply String.eqb_neq in Hne. rewrite Hne.
  by rewrite negb_true_iff, eq_str_get_false.
Qed.

(** C6: a descriptor of the catalog passes the kind filter of an [mp3]
    request iff its video codec is ["none"] and its audio codec is not, and
    the kind filter of any other request iff its video codec is not
    ["none"]; the filter keeps exactly the descriptors that pass. *)
Theorem kind_filter_spec format_type (formats : list (gmap string scalar))
    (f : gmap string scalar) :
  In f (List.filter (keep format_type) formats) ↔
  In f formats ∧
  if decide (format_type = "mp3")
  then f !! "vcodec" = Some (PStr "none") ∧ f !! "acodec" ≠ Some (PStr "none")
  else f !! "vcodec" ≠ Some (PStr "none").
Proof.
  rewrite filter_In. destruct (decide (format_type = "mp3")) as [->|Hne].
  - by rewrite keep_mp3.
  - by rewrite keep_video.
Qed.

(** ** The ranking *)

Lemma sort_key_rankable format_type (f : gmap string scalar) :
  rankable format_type f → sort_key format_type f = PInt (rank_of format_type f).
Proof.
  unfold rankable, rank_of, rank_field, sort_key, abr_key, height_key, get_def.
  destruct (String.eqb format_type "mp3"); intros [H|[n H]]; by rewrite H.
Qed.

Lemma sort_desc_rankable format_type (l : list (gmap string scalar)) :
  Forall (rankable format_type) l →
  sort_desc (sort_key format_type) l = inr (sort_z (rank_of format_type) l).
Proof.
  intros H. apply sort_desc_ranked.
  eapply Forall_impl; [exact H|]. apply sort_key_rankable.
Qed.

(** X17: a filtered list whose ranking values are integers where present
    is sorted without error, descending by height for a video request and
    by average bitrate for an [mp3] request, a missing key counting as
    zero; the result is a rearrangement of the list in which descriptors of
    equal rank keep their order. *)
Theorem sort_is_stable_descending format_type (l : list (gmap string scalar)) :
  Forall (rankable format_type) l →
  ∃ sorted,
    sort_desc (sort_key format_type) l = inr sorted
    ∧ Permutation l sorted
    ∧ descending (rank_of format_type) sorted
    ∧ ∀ k, List.filter (λ f, Z.eqb (rank_of format_type f) k) sorted
           = List.filter (λ f, Z.eqb (rank_of format_type f) k) l.
Proof.
  intros H. exists (sort_z (rank_of format_type) l). split_and!.
  - by apply sort_desc_rankable.
  - apply sort_z_perm.
  - apply sort_z_descending.
  - intros k. apply sort_z_stable.
Qed.

Lemma rankable_video id h : rankable "mp4" (video id h).
Proof. right. exists h. reflexivity. Qed.

Lemma rankable_audio id abr : rankable "mp3" (audio id abr).
Proof. right. exists abr. reflexivity. Qed.

Lemma sort_is_stable_descending_witness :
  Forall (rankable "mp3") audio_catalog
  ∧ ∃ sorted,
      sort_desc (sort_key "mp3") audio_catalog = inr sorted
      ∧ Permutation audio_catalog sorted
      ∧ descending (rank_of "mp3") sorted
      ∧ ∀ k, List.filter (λ f, Z.eqb (rank_of "mp3" f) k) sorted
             = List.filter (λ f, Z.eqb (rank_of "mp3" f) k) audio_catalog.
Proof.
  assert (H : Forall (rankable "mp3") audio_catalog)
    by (unfold audio_catalog;
        repeat (apply List.Forall_cons; [apply rankable_audio|]);
        apply List.Forall_nil).
  split; [exact H|]. exact (sort_is_stable_descending "mp3" audio_catalog H).
Defined.

(** Bitrates 64, 128, 192 come out as 192, 128, 64. *)
Example audio_ranking :
  select_formats "mp3" audio_catalog
  = inr [audio "z" 192; audio "y" 128; audio "x" 64].
Proof. exact eq_refl. Qed.

(** A height that is present but [None] is not a missing value: the
    comparison raises. *)
Example none_height_raises :
  sort_desc height_key [video "a" 144; <["height" := PNone]> (video "b" 0)]
  = inl (cmp_error "<" "int" "NoneType").
Proof. exact eq_refl. Qed.

(** C3: the claim does not hold for every filtered list.  Only an absent
    key is a missing value for [x.get('height', 0)] and [x.get('abr', 0)]:
    when the key is present with the value [None] the descriptor is not
    ranked as zero, the comparison of the sort raises, for heights and for
    bitrates alike, and the download endpoint answers 500 instead of a
    ranked list. *)
Theorem none_rank_is_500 :
  List.filter (keep "mp4") [video "a" 144; <["height" := PNone]> (video "b" 0)]
    = [video "a" 144; <["height" := PNone]> (video "b" 0)]
  ∧ sort_desc (sort_key "mp4")
      [video "a" 144; <["height" := PNone]> (video "b" 0)]
    = inl (cmp_error "<" "int" "NoneType")
  ∧ List.filter (keep "mp3") [audio "x" 64; <["abr" := PNone]> (audio "y" 0)]
    = [audio "x" 64; <["abr" := PNone]> (audio "y" 0)]
  ∧ sort_desc (sort_key "mp3")
      [audio "x" 64; <["abr" := PNone]> (audio "y" 0)]
    = inl (cmp_error "<" "int" "NoneType")
  ∧ serve (route_youtube_downloader
             (fake (inr (doc 212))
                (inr (with_formats
                        [video "a" 144; <["height" := PNone]> (video "b" 0)]
                        (doc 212)))))
          (sample_request "mp4" "best")
    = (Response
         (Failed ("Failed to process video: "
                  ++ "'<' not supported between instances of 'int' and 'NoneType'"))
         500,
       [Call probe_opts sample_url; Call (resolve_opts "mp4" "best") sample_url])
  ∧ serve (route_youtube_downloader
             (fake (inr (doc 212))
                (inr (with_formats
                        [audio "x" 64; <["abr" := PNone]> (audio "y" 0)]
                        (doc 212)))))
          (sample_request "mp3" "best")
    = (Response
         (Failed ("Failed to process video: "
                  ++ "'<' not supported between instances of 'int' and 'NoneType'"))
         500,
       [Call probe_opts sample_url; Call (resolve_opts "mp3" "best") sample_url]).
Proof. split_and!; exact eq_refl. Qed.

(** ** Selection *)

Lemma filter_take_prefix {A} (p : A → bool) n (l : list A) :
  List.filter p (take n l) `prefix_of` take n (List.filter p l).
Proof.
  revert n. induction l as [|x l IH]; intros [|n]; simpl;
    try apply prefix_nil.
  destruct (p x); simpl.
  - by apply prefix_cons.
  - etrans; [apply IH|]. replace n with (n `min` S n)%nat at 1 by lia.
    rewrite <- take_take. apply prefix_take.
Qed.

Lemma filter_all {A} (p : A → bool) (l : list A) :
  Forall (λ x, p x = true) l → List.filter p l = l.
Proof. induction 1 as [|x l Hx _ IH]; simpl; [done|]. by rewrite Hx, IH. Qed.

Lemma filter_take_all {A} (p : A → bool) n (l : list A) :
  Forall (λ x, p x = true) (take n l) →
  take n (List.filter p l) = take n l.
Proof.
  revert n. induction l as [|x l IH]; intros [|n]; simpl; try done.
  intros [Hx Hl]%Forall_cons. rewrite Hx. simpl. by rewrite IH.
Qed.

Lemma Forall_filter_bool {A} (P : A → Prop) (p : A → bool) (l : list A) :
  Forall P l → Forall P (List.filter p l).
Proof.
  rewrite !Forall_forall. intros H x Hx%list_elem_of_In%filter_In.
  apply H, list_elem_of_In, Hx.
Qed.

Lemma ranked_top5_spec_rankable format_type (formats : list (gmap string scalar)) :
  Forall (rankable format_type) (List.filter (keep format_type) formats) →
  ranked_top5_spec format_type formats
  = inr (take 5 (List.filter has_url
           (sort_z (rank_of format_type) (List.filter (keep format_type) formats)))).
Proof.
  intros H. unfold ranked_top5_spec.
  rewrite sort_desc_rankable by by apply Forall_filter_bool.
  by rewrite filter_sort_z.
Qed.

(** C1, as the code has it: the selector sorts the descriptors of the
    requested kind, cuts the ranking to its first five and only then drops
    those without a usable URL.  For a catalog whose ranking values are
    numbers where present, the answer holds at most five descriptors, all
    with a URL; it is a prefix of the top five of the URL-bearing
    descriptors, and it is exactly that top five when the first five of the
    kind all carry a URL. *)
Theorem select_formats_top5 format_type (formats : list (gmap string scalar)) :
  Forall (rankable format_type) (List.filter (keep format_type) formats) →
  ∃ sorted top5 links,
    sort_desc (sort_key format_type) (List.filter (keep format_type) formats)
      = inr sorted
    ∧ select_formats format_type formats = inr links
    ∧ links = List.filter has_url (take 5 sorted)
    ∧ (length links ≤ 5)%nat
    ∧ ranked_top5_spec format_type formats = inr top5
    ∧ links `prefix_of` top5
    ∧ (Forall (λ f, has_url f = true) (take 5 sorted) → links = top5).
Proof.
  intros H.
  set (sorted := sort_z (rank_of format_type) (List.filter (keep format_type) formats)).
  exists sorted, (take 5 (List.filter has_url sorted)),
    (List.filter has_url (take 5 sorted)).
  split_and!.
  - by apply sort_desc_rankable.
  - unfold select_formats. by rewrite sort_desc_rankable.
  - done.
  - etrans; [apply filter_length_le|]. apply firstn_le_length.
  - by apply ranked_top5_spec_rankable.
  - apply filter_take_prefix.
  - intros Hall. by rewrite filter_take_all, filter_all.
Qed.

Lemma has_url_video id h : has_url (video id h) = true.
Proof. reflexivity. Qed.

Lemma catalog_bottom_missing_rankable :
  Forall (rankable "mp4") (List.filter (keep "mp4") catalog_bottom_missing).
Proof.
  apply Forall_filter_bool. unfold catalog_bottom_missing.
  do 7 (apply List.Forall_cons; [apply rankable_video|]).
  apply List.Forall_cons; [right; exists 0; exact eq_refl|].
  apply List.Forall_nil.
Qed.

(** With the URL missing on the descriptor of height 0, the first five of
    the ranking all carry a URL, and the served links are those of the top
    five by height, the two of height 720 in catalog order. *)
Example served_bottom_missing :
  Forall (λ f, has_url f = true)
    [video "g" 1080; video "e" 720; video "f" 720; video "d" 480; video "c" 360]
  ∧ sort_desc (sort_key "mp4") (List.filter (keep "mp4") catalog_bottom_missing)
    = inr ([video "g" 1080; video "e" 720; video "f" 720; video "d" 480;
            video "c" 360; video "b" 240; video "a" 144]
           ++ [without_url (video "h" 0)])%list
  ∧ ∃ video_info,
      fst (serve (route_youtube_downloader
                    (fake (inr (doc 212))
                          (inr (with_formats catalog_bottom_missing (doc 212)))))
                 (sample_request "mp4" "best"))
      = ok (DownloadOk video_info
              (map (link_info "mp4")
                 [video "g" 1080; video "e" 720; video "f" 720; video "d" 480;
                  video "c" 360])
              "mp4" "best").
Proof.
  split_and!.
  - repeat (apply List.Forall_cons; [apply has_url_video|]). apply List.Forall_nil.
  - exact eq_refl.
  - eexists. exact eq_refl.
Qed.

Lemma select_formats_top5_witness :
  Forall (rankable "mp4") (List.filter (keep "mp4") catalog_bottom_missing)
  ∧ select_formats "mp4" catalog_bottom_missing
    = inr [video "g" 1080; video "e" 720; video "f" 720; video "d" 480; video "c" 360]
  ∧ ranked_top5_spec "mp4" catalog_bottom_missing
    = select_formats "mp4" catalog_bottom_missing.
Proof.
  split; [exact catalog_bottom_missing_rankable|].
  destruct (select_formats_top5 "mp4" catalog_bottom_missing
              catalog_bottom_missing_rankable)
    as (sorted & top5 & links & Hsorted & Hsel & Hlinks & _ & Hspec & _ & Hall).
  destruct served_bottom_missing as (Hurls & Hsorted' & _).
  rewrite Hsorted' in Hsorted. injection Hsorted as <-.
  rewrite Hsel, Hspec. split.
  - rewrite Hlinks. exact eq_refl.
  - rewrite (Hall Hurls). reflexivity.
Defined.


(** With the URL missing on the descriptor of height 1080, the answer has
    four entries, while the top five of the URL-bearing descriptors are
    five. *)
Lemma top5_top_missing_differs :
  select_formats "mp4" catalog_top_missing
  = inr [video "e" 720; video "f" 720; video "d" 480; video "c" 360]
  ∧ ranked_top5_spec "mp4" catalog_top_missing
    = inr [video "e" 720; video "f" 720; video "d" 480; video "c" 360; video "b" 240]
  ∧ download_links "mp4" "best" (with_formats catalog_top_missing (doc 212))
    = inr (map (link_info "mp4")
             [video "e" 720; video "f" 720; video "d" 480; video "c" 360])
  ∧ select_formats "mp4" catalog_top_missing
    ≠ ranked_top5_spec "mp4" catalog_top_missing.
Proof.
  assert (Hsel : select_formats "mp4" catalog_top_missing
    = inr [video "e" 720; video "f" 720; video "d" 480; video "c" 360])
    by (exact eq_refl).
  assert (Hspec : ranked_top5_spec "mp4" catalog_top_missing
    = inr [video "e" 720; video "f" 720; video "d" 480; video "c" 360; video "b" 240])
    by (exact eq_refl).
  split_and!; [exact Hsel|exact Hspec|exact eq_refl|].
  rewrite Hsel, Hspec. intros [=].
Qed.

(** The same catalog served through the download endpoint: four links. *)
Example served_top_missing :
  ∃ video_info,
    serve (route_youtube_downloader
             (fake (inr (doc 212)) (inr (with_formats catalog_top_missing (doc 212)))))
          (sample_request "mp4" "best")
    = (ok (DownloadOk video_info
             (map (link_info "mp4")
                [video "e" 720; video "f" 720; video "d" 480; video "c" 360])
             "mp4" "best"),
       [Call probe_opts sample_url; Call (resolve_opts "mp4" "best") sample_url]).
Proof. eexists. exact eq_refl. Qed.

(** ** The format-selector hint *)

(** C7: for each tier 144p..1080p the hint is [best[height<=N]] with [N]
    the label without its last character, which is the decimal text of the
    tier's height (["720p"] gives ceiling 720); for ["best"] the hint is
    plain ["best"].  The hint is built on strings alone; it is the [format]
    option of every resolve-mode call that is not for [mp3]. *)
Theorem format_selector_tiers :
  tiers = map (λ n : Z, pretty n ++ "p") [144; 240; 360; 480; 720; 1080]
  ∧ Forall (λ n : Z, format_selector (pretty n ++ "p")
                     = "best[height<=" ++ pretty n ++ "]")
           [144; 240; 360; 480; 720; 1080]
  ∧ Forall (λ q, q = strip_last q ++ "p"
                 ∧ format_selector q = "best[height<=" ++ strip_last q ++ "]")
           tiers
  ∧ format_selector "720p" = "best[height<=720]"
  ∧ format_selector "best" = "best"
  ∧ ∀ format_type quality,
      opt_format (resolve_opts format_type quality)
      = if String.eqb format_type "mp3" then "bestaudio/best"
        else format_selector quality.
Proof.
  split_and!; try (exact eq_refl).
  - repeat (apply List.Forall_cons; [exact eq_refl|]). apply List.Forall_nil.
  - unfold tiers.
    repeat (apply List.Forall_cons; [split; exact eq_refl|]).
    apply List.Forall_nil.
  - intros ft q. unfold resolve_opts. by destruct (String.eqb ft "mp3").
Qed.

(** ** The API-key gate *)

Lemma require_api_key_accepts (f : request → M response) req :
  args_get req "apikey" = Some API_KEY → require_api_key f req = f req.
Proof. intros H. unfold require_api_key. by rewrite H. Qed.

(** C5: when the [apikey] parameter is absent or differs from the
    configured secret, the decorated function answers 401 with the error
    body whatever the wrapped handler is, and leaves the call log as it
    was: neither endpoint reaches the extractor. *)
Theorem require_api_key_rejects (w : World) (f : request → M response)
    (req : request) :
  args_get req "apikey" ≠ Some API_KEY →
  (∀ log, require_api_key f req log
          = (inr (Response (Failed "Invalid or missing API key") 401), log))
  ∧ serve (route_youtube_downloader w) req
    = (Response (Failed "Invalid or missing API key") 401, [])
  ∧ serve (route_video_info w) req
    = (Response (Failed "Invalid or missing API key") 401, []).
Proof.
  intros Hkey.
  assert (Hgate : ∀ g log, require_api_key g req log
            = (inr (Response (Failed "Invalid or missing API key") 401), log)).
  { intros g log. unfold require_api_key.
    rewrite (bool_decide_eq_false_2 _ Hkey). by rewrite orb_true_r. }
  split_and!; [apply Hgate|..];
    unfold serve, route_youtube_downloader, route_video_info; by rewrite Hgate.
Qed.

Lemma require_api_key_rejects_witness :
  args_get wrong_key_request "apikey" ≠ Some API_KEY
  ∧ serve (route_youtube_downloader (fake (inr (doc 212)) (inr (doc 212))))
          wrong_key_request
    = (Response (Failed "Invalid or missing API key") 401, [])
  ∧ serve (route_video_info (fake (inr (doc 212)) (inr (doc 212))))
          wrong_key_request
    = (Response (Failed "Invalid or missing API key") 401, []).
Proof.
  assert (Hkey : args_get wrong_key_request "apikey" ≠ Some API_KEY)
    by (vm_compute; discriminate).
  split; [exact Hkey|].
  exact (proj2 (require_api_key_rejects (fake (inr (doc 212)) (inr (doc 212)))
                  (youtube_downloader (fake (inr (doc 212)) (inr (doc 212))))
                  wrong_key_request Hkey)).
Defined.

(** ** The URL validator *)

Lemma match_lit_nonempty lit s g : match_lit lit s = Some g → g ≠ "".
Proof.
  unfold match_lit. destruct (String.prefix lit s); [|done].
  destruct (run_of_id_chars _); [done|]. by intros [= <-].
Qed.

Lemma match_alts_nonempty lits s g : match_alts lits s = Some g → g ≠ "".
Proof.
  induction lits as [|lit lits IH]; simpl; [done|].
  destruct (match_lit lit s) eqn:Hm; [|done].
  intros [= <-]. by eapply match_lit_nonempty.
Qed.

Lemma re_search_nonempty lits s g : re_search lits s = Some g → g ≠ "".
Proof.
  induction s as [|c s IH]; simpl.
  - destruct (match_alts lits "") eqn:Hm; [|done].
    intros [= <-]. by eapply match_alts_nonempty.
  - destruct (match_alts lits (String c s)) eqn:Hm; [|done].
    intros [= <-]. by eapply match_alts_nonempty.
Qed.

Lemma extract_video_id_nonempty url :
  is_Some (extract_video_id url) → nonempty (extract_video_id url) = true.
Proof.
  intros [g Hg]. rewrite Hg.
  assert (g ≠ "") as Hne; [|by destruct g].
  revert Hg. unfold extract_video_id. generalize patterns.
  induction l as [|p ps IH]; simpl; [done|].
  destruct (re_search p url) eqn:Hs; [|done].
  intros [= <-]. by eapply re_search_nonempty.
Qed.

Example extract_video_id_samples :
  extract_video_id "https://www.youtube.com/watch?v=dQw4w9WgXcQ&t=42" = Some "dQw4w9WgXcQ"
  ∧ extract_video_id sample_url = Some "dQw4w9WgXcQ"
  ∧ extract_video_id "https://www.youtube.com/embed/abc123?rel=0" = Some "abc123"
  ∧ extract_video_id "http://youtube.com/v/xyz_9#top" = Some "xyz_9"
  ∧ extract_video_id "https://example.com/watch?v=abc" = None
  ∧ extract_video_id "https://youtu.be/" = None.
Proof. repeat split; exact eq_refl. Qed.

(** ** The probe *)

Lemma get_video_info_raised (w : World) url log e :
  extract_info w log probe_opts url = inl e →
  get_video_info w url log
  = (inr (None, Some (exn_text e)), app log [Call probe_opts url]).
Proof.
  intros H. unfold get_video_info, try_except, mbind, M_bind, bind, call_extract.
  by rewrite H.
Qed.

Lemma get_video_info_too_long (w : World) url log info d :
  extract_info w log probe_opts url = inr info →
  info !! "duration" = Some (PScalar (PInt d)) →
  MAX_DURATION < d →
  get_video_info w url log
  = (inr (None, Some (too_long d)), app log [Call probe_opts url]).
Proof.
  intros H Hd Hlt. unfold get_video_info, try_except, mbind, M_bind, bind, call_extract.
  rewrite H. unfold iget_def. rewrite Hd. simpl.
  destruct (Z.ltb_spec MAX_DURATION d); [done|lia].
Qed.

Lemma get_video_info_passes (w : World) url log info :
  extract_info w log probe_opts url = inr info →
  (info !! "duration" = None
   ∨ ∃ d, info !! "duration" = Some (PScalar (PInt d)) ∧ d ≤ MAX_DURATION) →
  get_video_info w url log
  = (inr (Some info, None), app log [Call probe_opts url]).
Proof.
  intros H Hd. unfold get_video_info, try_except, mbind, M_bind, bind, call_extract.
  rewrite H. unfold iget_def. destruct Hd as [->|(d & -> & Hle)]; simpl.
  - done.
  - destruct (Z.ltb_spec MAX_DURATION d); [lia|done].
Qed.

(** [get_video_info] catches everything: it always returns its pair, after
    exactly one call in probe mode. *)
Lemma get_video_info_total (w : World) url log :
  ∃ info error,
    get_video_info w url log = (inr (info, error), app log [Call probe_opts url]).
Proof.
  unfold get_video_info, try_except, mbind, M_bind, bind, call_extract.
  destruct (extract_info w log probe_opts url) as [e|info]; [by eauto|].
  destruct (iget_def info "duration" (PScalar (PInt 0))) as [[|d|]|]; simpl;
    try by eauto.
  destruct (Z.ltb MAX_DURATION d); by eauto.
Qed.

(** ** The download endpoint on a well-formed request *)

Section Downloader.
Context (w : World) (req : request) (url : string).
Hypothesis Hvalid : valid_request w req url.

Lemma downloader_probe_failed info error log :
  get_video_info w url [] = (inr (info, Some error), log) →
  error ≠ "" →
  serve (route_youtube_downloader w) req = (bad_request error, log).
Proof.
  destruct Hvalid as (Hkey & raw & Hraw & Hne & -> & Hid).
  intros Hprobe Herr. unfold serve, route_youtube_downloader.
  rewrite require_api_key_accepts by done.
  unfold youtube_downloader, try_except, mbind, M_bind, bind.
  rewrite Hraw. change (default "" (Some raw)) with raw.
  replace (nonempty (Some raw)) with true by by destruct raw.
  rewrite extract_video_id_nonempty by done. cbn [negb].
  rewrite Hprobe. by replace (nonempty (Some error)) with true by by destruct error.
Qed.

Lemma downloader_resolve_raised info error log e :
  get_video_info w url [] = (inr (info, error), log) →
  nonempty error = false →
  extract_info w log (resolve_opts (format_of req) (quality_of req)) url = inl e →
  serve (route_youtube_downloader w) req
  = (Response (Failed ("Failed to process video: " ++ exn_text e)) 500,
     app log [Call (resolve_opts (format_of req) (quality_of req)) url]).
Proof.
  destruct Hvalid as (Hkey & raw & Hraw & Hne & -> & Hid).
  intros Hprobe Herr Hres. unfold serve, route_youtube_downloader.
  rewrite require_api_key_accepts by done.
  unfold youtube_downloader, try_except, mbind, M_bind, bind.
  rewrite Hraw. change (default "" (Some raw)) with raw.
  replace (nonempty (Some raw)) with true by by destruct raw.
  rewrite extract_video_id_nonempty by done. cbn [negb].
  rewrite Hprobe, Herr. unfold call_extract.
  fold (format_of req) (quality_of req). by rewrite Hres.
Qed.

Lemma downloader_resolved info error log info' :
  get_video_info w url [] = (inr (info, error), log) →
  nonempty error = false →
  extract_info w log (resolve_opts (format_of req) (quality_of req)) url = inr info' →
  serve (route_youtube_downloader w) req
  = (respond (format_of req) (quality_of req) info',
     app log [Call (resolve_opts (format_of req) (quality_of req)) url]).
Proof.
  destruct Hvalid as (Hkey & raw & Hraw & Hne & -> & Hid).
  intros Hprobe Herr Hres. unfold serve, route_youtube_downloader.
  rewrite require_api_key_accepts by done.
  unfold youtube_downloader, try_except, mbind, M_bind, bind.
  rewrite Hraw. change (default "" (Some raw)) with raw.
  replace (nonempty (Some raw)) with true by by destruct raw.
  rewrite extract_video_id_nonempty by done. cbn [negb].
  rewrite Hprobe, Herr. unfold call_extract.
  fold (format_of req) (quality_of req). rewrite Hres.
  unfold respond, lift.
  destruct (download_links _ _ info') as [e|links]; [done|].
  by destruct (trimmed_description info') as [e|d].
Qed.
End Downloader.

Lemma sample_request_valid probe resolve format quality :
  valid_request (fake probe resolve) (sample_request format quality) sample_url.
Proof.
  split; [reflexivity|]. exists sample_url. split_and!; try done.
Qed.

Lemma probe_is_not_resolve format_type quality :
  probe_opts ≠ resolve_opts format_type quality.
Proof. unfold resolve_opts, probe_opts. by destruct (String.eqb format_type "mp3"). Qed.

Lemma too_long_text d :
  too_long d = "Video too long (" ++ pretty d ++ "s). Maximum allowed: 3600s".
Proof. reflexivity. Qed.

Lemma too_long_nonempty d : too_long d ≠ "".
Proof. by rewrite too_long_text. Qed.

(** ** The duration ceiling *)

(** C4: when the probe reports a duration above the ceiling of 3600
    seconds, the download endpoint answers 400 with a message that spells
    out the duration and the ceiling, and the only extractor call of the
    request is the probe: no call in resolve mode is made. *)
Theorem too_long_is_rejected (w : World) (req : request) (url : string)
    (info : gmap string pyval) (d : Z) :
  valid_request w req url →
  extract_info w [] probe_opts url = inr info →
  info !! "duration" = Some (PScalar (PInt d)) →
  MAX_DURATION < d →
  ∃ log,
    serve (route_youtube_downloader w) req
    = (Response (Failed ("Video too long (" ++ pretty d
                           ++ "s). Maximum allowed: 3600s")) 400, log)
    ∧ log = [Call probe_opts url]
    ∧ ∀ format_type quality u,
        Call (resolve_opts format_type quality) u ∉ log.
Proof.
  intros Hvalid Hprobe Hd Hlt. exists [Call probe_opts url]. split_and!.
  - rewrite <- too_long_text.
    apply (downloader_probe_failed w req url Hvalid None).
    + by apply (get_video_info_too_long w url [] info d).
    + apply too_long_nonempty.
  - done.
  - intros ft q u [= Hc _]%list_elem_of_singleton.
    by apply (probe_is_not_resolve ft q).
Qed.

Lemma too_long_is_rejected_witness :
  valid_request (fake (inr (doc 3601)) (inr (doc 3601)))
                (sample_request "mp4" "720p") sample_url
  ∧ extract_info (fake (inr (doc 3601)) (inr (doc 3601))) [] probe_opts sample_url
    = inr (doc 3601)
  ∧ doc 3601 !! "duration" = Some (PScalar (PInt 3601))
  ∧ MAX_DURATION < 3601
  ∧ ∃ log,
      serve (route_youtube_downloader (fake (inr (doc 3601)) (inr (doc 3601))))
            (sample_request "mp4" "720p")
      = (Response (Failed "Video too long (3601s). Maximum allowed: 3600s") 400, log)
      ∧ log = [Call probe_opts sample_url]
      ∧ ∀ format_type quality u,
          Call (resolve_opts format_type quality) u ∉ log.
Proof.
  assert (Hv := sample_request_valid (inr (doc 3601)) (inr (doc 3601)) "mp4" "720p").
  assert (Hd : doc 3601 !! "duration" = Some (PScalar (PInt 3601)))
    by (exact eq_refl).
  assert (Hlt : MAX_DURATION < 3601) by (unfold MAX_DURATION; lia).
  split_and!; [exact Hv|reflexivity|exact Hd|exact Hlt|].
  exact (too_long_is_rejected _ _ _ (doc 3601) 3601 Hv eq_refl Hd Hlt).
Defined.

(** C10: when the probed document has no [duration] key the duration
    counts as 0, and when it reports a duration up to and including the
    ceiling the comparison, being strict, is false: the probe returns the
    document without error, the handler goes on to the resolve-mode call,
    and the request is not answered with a 400. *)
Theorem duration_check_passes (w : World) (req : request) (url : string)
    (info : gmap string pyval) :
  valid_request w req url →
  extract_info w [] probe_opts url = inr info →
  (info !! "duration" = None
   ∨ ∃ d, info !! "duration" = Some (PScalar (PInt d)) ∧ d ≤ MAX_DURATION) →
  get_video_info w url [] = (inr (Some info, None), [Call probe_opts url])
  ∧ (info !! "duration" = None →
     iget_def info "duration" (PScalar (PInt 0)) = PScalar (PInt 0))
  ∧ snd (serve (route_youtube_downloader w) req)
    = [Call probe_opts url;
       Call (resolve_opts (format_of req) (quality_of req)) url]
  ∧ status_code (fst (serve (route_youtube_downloader w) req)) ≠ 400.
Proof.
  intros Hvalid Hprobe Hd.
  assert (Hinfo := get_video_info_passes w url [] info Hprobe Hd).
  split_and!; [done|by unfold iget_def; intros ->|..];
    destruct (extract_info w [Call probe_opts url]
                (resolve_opts (format_of req) (quality_of req)) url)
      as [e|info'] eqn:Hres.
  - by rewrite (downloader_resolve_raised w req url Hvalid _ _ _ e Hinfo eq_refl Hres).
  - by rewrite (downloader_resolved w req url Hvalid _ _ _ info' Hinfo eq_refl Hres).
  - by rewrite (downloader_resolve_raised w req url Hvalid _ _ _ e Hinfo eq_refl Hres).
  - rewrite (downloader_resolved w req url Hvalid _ _ _ info' Hinfo eq_refl Hres).
    simpl. unfold respond.
    destruct (download_links _ _ info'); [done|].
    by destruct (trimmed_description info').
Qed.

Lemma duration_check_passes_witness :
  valid_request (fake (inr (doc 3600)) (inr single_doc))
                (sample_request "mp3" "best") sample_url
  ∧ extract_info (fake (inr (doc 3600)) (inr single_doc)) [] probe_opts sample_url
    = inr (doc 3600)
  ∧ (doc 3600 !! "duration" = None
     ∨ ∃ d, doc 3600 !! "duration" = Some (PScalar (PInt d)) ∧ d ≤ MAX_DURATION)
  ∧ snd (serve (route_youtube_downloader (fake (inr (doc 3600)) (inr single_doc)))
               (sample_request "mp3" "best"))
    = [Call probe_opts sample_url;
       Call (resolve_opts (format_of (sample_request "mp3" "best"))
                          (quality_of (sample_request "mp3" "best"))) sample_url]
  ∧ status_code
      (fst (serve (route_youtube_downloader (fake (inr (doc 3600)) (inr single_doc)))
                  (sample_request "mp3" "best"))) ≠ 400.
Proof.
  assert (Hv := sample_request_valid (inr (doc 3600)) (inr single_doc) "mp3" "best").
  assert (Hd : doc 3600 !! "duration" = None
     ∨ ∃ d, doc 3600 !! "duration" = Some (PScalar (PInt d)) ∧ d ≤ MAX_DURATION).
  { right. exists 3600. split; [exact eq_refl|unfold MAX_DURATION; lia]. }
  split_and!; [exact Hv|reflexivity|exact Hd|..];
    apply (duration_check_passes _ _ _ (doc 3600) Hv eq_refl Hd).
Defined.

(** A document without any [duration] key is accepted as well. *)
Example no_duration_passes :
  get_video_info (fake (inr single_doc) (inr single_doc)) sample_url []
  = (inr (Some single_doc, None), [Call probe_opts sample_url])
  ∧ get_video_info (fake (inr (delete "duration" single_doc)) (inr single_doc))
      sample_url []
    = (inr (Some (delete "duration" single_doc), None), [Call probe_opts sample_url]).
Proof. split; exact eq_refl. Qed.

(** ** Extraction failures *)

(** C2, as the code has it: an error raised by the probe-mode call is
    caught in [get_video_info] and, its text not being empty, answered
    with 400 and that text; an error raised by the resolve-mode call is
    caught by the handler's outer [except] and answered with 500 and the
    text prefixed by ['Failed to process video: ']. *)
Theorem extraction_errors_reported (w : World) (req : request) (url : string) :
  valid_request w req url →
  (∀ e, extract_info w [] probe_opts url = inl e →
        exn_text e ≠ "" →
        serve (route_youtube_downloader w) req
        = (Response (Failed (exn_text e)) 400, [Call probe_opts url]))
  ∧ (∀ info error e,
        get_video_info w url [] = (inr (info, error), [Call probe_opts url]) →
        nonempty error = false →
        extract_info w [Call probe_opts url]
          (resolve_opts (format_of req) (quality_of req)) url = inl e →
        serve (route_youtube_downloader w) req
        = (Response (Failed ("Failed to process video: " ++ exn_text e)) 500,
           [Call probe_opts url;
            Call (resolve_opts (format_of req) (quality_of req)) url])).
Proof.
  intros Hvalid. split.
  - intros e Hprobe Htext.
    apply (downloader_probe_failed w req url Hvalid None); [|done].
    by apply get_video_info_raised.
  - intros info error e Hinfo Herr Hres.
    by rewrite (downloader_resolve_raised w req url Hvalid _ _ _ e Hinfo Herr Hres).
Qed.

Lemma extraction_errors_reported_witness :
  valid_request (fake (inl (Exn "ERROR: Video unavailable")) (inr single_doc))
                (sample_request "mp4" "720p") sample_url
  ∧ serve (route_youtube_downloader
             (fake (inl (Exn "ERROR: Video unavailable")) (inr single_doc)))
          (sample_request "mp4" "720p")
    = (Response (Failed "ERROR: Video unavailable") 400,
       [Call probe_opts sample_url]).
Proof.
  assert (Hv := sample_request_valid (inl (Exn "ERROR: Video unavailable"))
                  (inr single_doc) "mp4" "720p").
  split; [exact Hv|].
  refine (proj1 (extraction_errors_reported _ _ _ Hv)
            (Exn "ERROR: Video unavailable") eq_refl _).
  vm_compute. discriminate.
Defined.

(** An error of the resolve-mode call is answered with 500, not 400. *)
Lemma resolve_error_is_500 :
  serve (route_youtube_downloader
           (fake (inr (doc 212)) (inl (Exn "HTTP Error 403: Forbidden"))))
        (sample_request "mp4" "720p")
  = (Response (Failed "Failed to process video: HTTP Error 403: Forbidden") 500,
     [Call probe_opts sample_url;
      Call (resolve_opts "mp4" "720p") sample_url])
  ∧ status_code
      (fst (serve (route_youtube_downloader
                     (fake (inr (doc 212)) (inl (Exn "HTTP Error 403: Forbidden"))))
                  (sample_request "mp4" "720p"))) ≠ 400.
Proof. split; [exact eq_refl|vm_compute; discriminate]. Qed.

(** ** [mp4] and [webm] *)

Lemma keep_not_mp3 ft1 ft2 (f : gmap string scalar) :
  ft1 ≠ "mp3" → ft2 ≠ "mp3" → keep ft1 f = keep ft2 f.
Proof.
  intros H1%String.eqb_neq H2%String.eqb_neq. unfold keep. by rewrite H1, H2.
Qed.

Lemma resolve_opts_not_mp3 ft1 ft2 quality :
  ft1 ≠ "mp3" → ft2 ≠ "mp3" → resolve_opts ft1 quality = resolve_opts ft2 quality.
Proof.
  intros H1%String.eqb_neq H2%String.eqb_neq. unfold resolve_opts. by rewrite H1, H2.
Qed.

Lemma select_formats_not_mp3 ft1 ft2 formats :
  ft1 ≠ "mp3" → ft2 ≠ "mp3" → select_formats ft1 formats = select_formats ft2 formats.
Proof.
  intros H1 H2. unfold select_formats, sort_key.
  rewrite (filter_ext _ _ (λ f, keep_not_mp3 ft1 ft2 f H1 H2)).
  apply String.eqb_neq in H1, H2. by rewrite H1, H2.
Qed.

Lemma link_info_not_mp3 ft1 ft2 (f : gmap string scalar) :
  ft1 ≠ "mp3" → ft2 ≠ "mp3" → link_info ft1 f = link_info ft2 f.
Proof.
  intros H1%String.eqb_neq H2%String.eqb_neq. unfold link_info. by rewrite H1, H2.
Qed.

Lemma download_links_not_mp3 ft1 ft2 quality (info : gmap string pyval) :
  ft1 ≠ "mp3" → ft2 ≠ "mp3" → is_Some (info !! "formats") →
  download_links ft1 quality info = download_links ft2 quality info.
Proof.
  intros H1 H2 [formats Hf]. unfold download_links. rewrite Hf.
  destruct (as_formats formats) as [e|fs]; simpl; [done|].
  rewrite (select_formats_not_mp3 ft1 ft2 fs H1 H2).
  destruct (select_formats ft2 fs) as [e|sel]; simpl; [done|].
  f_equal. apply map_ext. intros f. by apply link_info_not_mp3.
Qed.

Lemma respond_not_mp3 ft1 ft2 quality (info : gmap string pyval) :
  ft1 ≠ "mp3" → ft2 ≠ "mp3" → is_Some (info !! "formats") →
  status_code (respond ft1 quality info) = status_code (respond ft2 quality info)
  ∧ erase_requested_format (resp_body (respond ft1 quality info))
    = erase_requested_format (resp_body (respond ft2 quality info)).
Proof.
  intros H1 H2 Hf. unfold respond.
  rewrite (download_links_not_mp3 ft1 ft2 quality info H1 H2 Hf).
  destruct (download_links ft2 quality info) as [e|links]; [done|].
  by destruct (trimmed_description info).
Qed.

(** C8: for every URL, quality and extractor catalog, two well-formed
    requests for that URL and quality, one with format [mp4] and one with
    [webm], make the same extractor calls (the same format-selector hint)
    and pass the catalog through the same kind filter; the resolve-mode
    document carrying a catalog, their responses have the same status and
    the same body up to the echoed [requested_format], hence the same
    [download_links]. *)
Theorem mp4_webm_same_with_catalog (w : World) (req1 req2 : request) (url : string) :
  valid_request w req1 url →
  valid_request w req2 url →
  format_of req1 = "mp4" →
  format_of req2 = "webm" →
  quality_of req1 = quality_of req2 →
  (∀ info, extract_info w [Call probe_opts url]
             (resolve_opts "mp4" (quality_of req1)) url = inr info →
           is_Some (info !! "formats")) →
  resolve_opts "mp4" (quality_of req1) = resolve_opts "webm" (quality_of req2)
  ∧ (∀ f, keep "mp4" f = keep "webm" f)
  ∧ snd (serve (route_youtube_downloader w) req1)
    = snd (serve (route_youtube_downloader w) req2)
  ∧ status_code (fst (serve (route_youtube_downloader w) req1))
    = status_code (fst (serve (route_youtube_downloader w) req2))
  ∧ erase_requested_format (resp_body (fst (serve (route_youtube_downloader w) req1)))
    = erase_requested_format (resp_body (fst (serve (route_youtube_downloader w) req2))).
Proof.
  intros Hv1 Hv2 Hf1 Hf2 Hq Hcat.
  assert (Hmp4 : "mp4" ≠ "mp3") by done.
  assert (Hwebm : "webm" ≠ "mp3") by done.
  assert (Hopts := resolve_opts_not_mp3 "mp4" "webm" (quality_of req1) Hmp4 Hwebm).
  split_and!; [by rewrite <- Hq|by intros f; apply keep_not_mp3|..];
    destruct (get_video_info_total w url []) as (info & error & Hinfo);
    simpl in Hinfo;
    (destruct (nonempty error) eqn:Herr;
     [ destruct error as [[|c error]|]; try done;
       by rewrite (downloader_probe_failed w req1 url Hv1 _ _ _ Hinfo),
                  (downloader_probe_failed w req2 url Hv2 _ _ _ Hinfo)
     | destruct (extract_info w [Call probe_opts url]
                   (resolve_opts "mp4" (quality_of req1)) url)
         as [e|info'] eqn:Hres;
       [ rewrite (downloader_resolve_raised w req1 url Hv1 _ _ _ e Hinfo Herr),
                 (downloader_resolve_raised w req2 url Hv2 _ _ _ e Hinfo Herr);
           rewrite ?Hf1, ?Hf2, <- ?Hq, <- ?Hopts; done
       | rewrite (downloader_resolved w req1 url Hv1 _ _ _ info' Hinfo Herr),
                 (downloader_resolved w req2 url Hv2 _ _ _ info' Hinfo Herr);
           rewrite ?Hf1, ?Hf2, <- ?Hq, <- ?Hopts; try done;
           simpl; by apply respond_not_mp3, Hcat ] ]).
Qed.

Lemma mp4_webm_same_with_catalog_witness :
  valid_request
    (fake (inr (doc 212)) (inr (with_formats catalog_bottom_missing (doc 212))))
    (sample_request "MP4" "720p") sample_url
  ∧ valid_request
      (fake (inr (doc 212)) (inr (with_formats catalog_bottom_missing (doc 212))))
      (sample_request "webm" "720p") sample_url
  ∧ format_of (sample_request "MP4" "720p") = "mp4"
  ∧ format_of (sample_request "webm" "720p") = "webm"
  ∧ quality_of (sample_request "MP4" "720p") = quality_of (sample_request "webm" "720p")
  ∧ erase_requested_format
      (resp_body (fst (serve
         (route_youtube_downloader
            (fake (inr (doc 212)) (inr (with_formats catalog_bottom_missing (doc 212)))))
         (sample_request "MP4" "720p"))))
    = erase_requested_format
        (resp_body (fst (serve
           (route_youtube_downloader
              (fake (inr (doc 212)) (inr (with_formats catalog_bottom_missing (doc 212)))))
           (sample_request "webm" "720p")))).
Proof.
  assert (Hv1 := sample_request_valid (inr (doc 212))
                   (inr (with_formats catalog_bottom_missing (doc 212))) "MP4" "720p").
  assert (Hv2 := sample_request_valid (inr (doc 212))
                   (inr (with_formats catalog_bottom_missing (doc 212))) "webm" "720p").
  assert (Hcat : ∀ info,
            extract_info
              (fake (inr (doc 212)) (inr (with_formats catalog_bottom_missing (doc 212))))
              [Call probe_opts sample_url]
              (resolve_opts "mp4" (quality_of (sample_request "MP4" "720p")))
              sample_url = inr info →
            is_Some (info !! "formats")).
  { intros info [= <-]. eexists. reflexivity. }
  split_and!; [exact Hv1|exact Hv2|reflexivity|reflexivity|reflexivity|].
  apply (mp4_webm_same_with_catalog _ _ _ sample_url Hv1 Hv2 eq_refl eq_refl eq_refl Hcat).
Defined.

(** Outside the catalogs, in the single-URL fallback, the link carries the
    requested format as its [ext]: there the [download_links] of an [mp4]
    and of a [webm] request differ in that field. *)
Lemma mp4_webm_fallback_differs :
  (∃ video_info,
     serve (route_youtube_downloader (fake (inr (doc 212)) (inr single_doc)))
           (sample_request "mp4" "best")
     = (ok (DownloadOk video_info [single_link "mp4" "best" single_doc] "mp4" "best"),
        [Call probe_opts sample_url; Call (resolve_opts "mp4" "best") sample_url])
     ∧ serve (route_youtube_downloader (fake (inr (doc 212)) (inr single_doc)))
             (sample_request "webm" "best")
       = (ok (DownloadOk video_info [single_link "webm" "best" single_doc] "webm" "best"),
          [Call probe_opts sample_url; Call (resolve_opts "webm" "best") sample_url]))
  ∧ single_link "mp4" "best" single_doc !! "ext" = Some (PScalar (PStr "mp4"))
  ∧ single_link "webm" "best" single_doc !! "ext" = Some (PScalar (PStr "webm"))
  ∧ erase_requested_format
      (resp_body (fst (serve
         (route_youtube_downloader (fake (inr (doc 212)) (inr single_doc)))
         (sample_request "mp4" "best"))))
    ≠ erase_requested_format
        (resp_body (fst (serve
           (route_youtube_downloader (fake (inr (doc 212)) (inr single_doc)))
           (sample_request "webm" "best")))).
Proof.
  split_and!.
  - eexists. split; exact eq_refl.
  - exact eq_refl.
  - exact eq_refl.
  - intros H.
    assert (H' := f_equal (λ b, match b with
                                | DownloadOk _ [link] _ _ => link !! "ext"
                                | _ => None
                                end) H).
    vm_compute in H'. discriminate H'.
Qed.

(** ** The info endpoint *)

Lemma video_info_passed (w : World) (req : request) (url : string)
    (info : gmap string pyval) log :
  valid_request w req url →
  get_video_info w url [] = (inr (Some info, None), log) →
  serve (route_video_info w) req
  = (match slice_to 10 (iget_def info "tags" (PList [])) with
     | inl e => Response (Failed ("Failed to get video info: " ++ exn_text e)) 500
     | inr tags => ok (InfoOk (full_video_info info tags))
     end, log).
Proof.
  intros (Hkey & raw & Hraw & Hne & -> & Hid) Hprobe.
  unfold serve, route_video_info.
  rewrite require_api_key_accepts by done.
  unfold video_info, try_except, mbind, M_bind, bind.
  rewrite Hraw. change (default "" (Some raw)) with raw.
  replace (nonempty (Some raw)) with true by by destruct raw.
  rewrite extract_video_id_nonempty by done. cbn [negb].
  rewrite Hprobe. cbn [nonempty]. unfold lift.
  by destruct (slice_to 10 (iget_def info "tags" (PList []))).
Qed.

(** C9: for a probed document that passes the duration check and whose
    [tags], when present, is a list, the info endpoint answers 200 with a
    [tags] entry that is the first ten tags of the document (none when the
    document has no [tags]): at most ten entries, however many the source
    reports.  The probe is the only extractor call. *)
Theorem info_tags_truncated (w : World) (req : request) (url : string)
    (info : gmap string pyval) (tags : list item) :
  valid_request w req url →
  extract_info w [] probe_opts url = inr info →
  (info !! "duration" = None
   ∨ ∃ d, info !! "duration" = Some (PScalar (PInt d)) ∧ d ≤ MAX_DURATION) →
  (info !! "tags" = Some (PList tags) ∨ (info !! "tags" = None ∧ tags = [])) →
  ∃ video_info,
    serve (route_video_info w) req
    = (ok (InfoOk video_info), [Call probe_opts url])
    ∧ video_info !! "tags" = Some (PList (take 10 tags))
    ∧ (length (take 10 tags) ≤ 10)%nat
    ∧ take 10 tags `prefix_of` tags.
Proof.
  intros Hvalid Hprobe Hd Htags.
  exists (full_video_info info (PList (take 10 tags))). split_and!.
  - rewrite (video_info_passed w req url info [Call probe_opts url] Hvalid)
      by by apply (get_video_info_passes w url [] info).
    unfold iget_def. by destruct Htags as [->|[-> ->]].
  - unfold full_video_info. by simplify_map_eq.
  - apply firstn_le_length.
  - apply prefix_take.
Qed.

Lemma info_tags_truncated_witness :
  valid_request (fake (inr (tagged_doc twelve_tags)) (inr single_doc))
                (Request [("apikey", API_KEY); ("url", sample_url)]) sample_url
  ∧ ∃ video_info,
      serve (route_video_info (fake (inr (tagged_doc twelve_tags)) (inr single_doc)))
            (Request [("apikey", API_KEY); ("url", sample_url)])
      = (ok (InfoOk video_info), [Call probe_opts sample_url])
      ∧ video_info !! "tags"
        = Some (PList (take 10 (map (λ t, IScalar (PStr t)) twelve_tags)))
      ∧ (length (take 10 (map (λ t, IScalar (PStr t)) twelve_tags)) ≤ 10)%nat
      ∧ take 10 (map (λ t, IScalar (PStr t)) twelve_tags)
          `prefix_of` map (λ t, IScalar (PStr t)) twelve_tags.
Proof.
  assert (Hv : valid_request (fake (inr (tagged_doc twelve_tags)) (inr single_doc))
                 (Request [("apikey", API_KEY); ("url", sample_url)]) sample_url).
  { split; [reflexivity|]. exists sample_url. split_and!; done. }
  split; [exact Hv|].
  apply (info_tags_truncated _ _ _ (tagged_doc twelve_tags) _ Hv eq_refl).
  - right. exists 212. split; [exact eq_refl|unfold MAX_DURATION; lia].
  - left. exact eq_refl.
Defined.

(** Twelve tags in, ten tags out. *)
Example twelve_tags_cut :
  ∃ video_info,
    fst (serve (route_video_info (fake (inr (tagged_doc twelve_tags)) (inr single_doc)))
               (Request [("apikey", API_KEY); ("url", sample_url)]))
    = ok (InfoOk video_info)
    ∧ video_info !! "tags"
      = Some (PList (map (λ t, IScalar (PStr t))
                       ["t1"; "t2"; "t3"; "t4"; "t5"; "t6"; "t7"; "t8"; "t9"; "t10"])).
Proof. eexists. split; exact eq_refl. Qed.

(** * Further properties *)

(** ** [extract_video_id]: what is recognised *)

Lemma append_nil (s : string) : "" ++ s = s.
Proof. reflexivity. Qed.

Lemma append_cons c (s t : string) : String c s ++ t = String c (s ++ t).
Proof. reflexivity. Qed.

Ltac app_simpl := rewrite ?append_cons, ?append_nil; simpl.

Lemma prefix_append lit s : String.prefix lit (lit ++ s) = true.
Proof.
  induction lit as [|c lit IH]; app_simpl; [by destruct s|].
  by destruct (ascii_dec c c).
Qed.

Lemma prefix_split lit s :
  String.prefix lit s = true → s = lit ++ drop_chars (String.length lit) s.
Proof.
  revert s. induction lit as [|c lit IH]; intros s; app_simpl; [done|].
  destruct s as [|c' s]; simpl; [done|].
  destruct (ascii_dec c c') as [<-|]; [|done].
  intros H. by rewrite <- IH.
Qed.

Lemma drop_chars_append lit s : drop_chars (String.length lit) (lit ++ s) = s.
Proof. induction lit as [|c lit IH]; app_simpl; [by destruct s|done]. Qed.

Lemma run_of_id_chars_split s :
  id_chars (run_of_id_chars s) = true
  ∧ ∃ tail, s = run_of_id_chars s ++ tail ∧ ends_id tail.
Proof.
  induction s as [|c s [IH1 (tail & IH2 & IH3)]]; simpl.
  - split; [done|]. exists "". split; [done|by left].
  - destruct (id_char c) eqn:Hc; simpl.
    + rewrite Hc, IH1. split; [done|]. exists tail.
      split; [by rewrite append_cons, <- IH2|done].
    + split; [done|]. exists (String c s). split; [done|]. right. eauto.
Qed.

Lemma run_of_id_chars_append g tail :
  id_chars g = true → ends_id tail → run_of_id_chars (g ++ tail) = g.
Proof.
  intros Hg Ht. induction g as [|c g IH]; app_simpl; simpl in Hg.
  - destruct Ht as [->|(c & t & -> & Hc)]; simpl; [done|by rewrite Hc].
  - apply andb_true_iff in Hg as [Hc Hg]. by rewrite Hc, IH.
Qed.

Lemma match_lit_append lit g tail :
  g ≠ "" → id_chars g = true → ends_id tail →
  match_lit lit (lit ++ g ++ tail) = Some g.
Proof.
  intros Hne Hg Ht. unfold match_lit.
  rewrite prefix_append, drop_chars_append, run_of_id_chars_append by done.
  by destruct g.
Qed.

Lemma match_lit_sound lit s g :
  match_lit lit s = Some g →
  ∃ tail, s = lit ++ g ++ tail ∧ g ≠ "" ∧ id_chars g = true ∧ ends_id tail.
Proof.
  unfold match_lit. destruct (String.prefix lit s) eqn:Hp; [|done].
  apply prefix_split in Hp.
  destruct (run_of_id_chars_split (drop_chars (String.length lit) s))
    as (Hid & tail & Hs & Ht).
  destruct (run_of_id_chars _) as [|c r] eqn:Hr; [done|].
  intros [= <-]. exists tail. split_and!; try done.
  by rewrite <- Hs.
Qed.

Lemma match_alts_sound lits s g :
  match_alts lits s = Some g →
  ∃ lit tail, In lit lits ∧ s = lit ++ g ++ tail
              ∧ g ≠ "" ∧ id_chars g = true ∧ ends_id tail.
Proof.
  induction lits as [|lit lits IH]; simpl; [done|].
  destruct (match_lit lit s) as [g'|] eqn:Hm.
  - intros [= ->]. apply match_lit_sound in Hm as (tail & H).
    exists lit, tail. split; [by left|done].
  - intros (lit' & tail & Hin & H)%IH. exists lit', tail. split; [by right|done].
Qed.

Lemma re_search_sound lits s g :
  re_search lits s = Some g →
  ∃ pre lit tail, In lit lits ∧ s = pre ++ lit ++ g ++ tail
                  ∧ g ≠ "" ∧ id_chars g = true ∧ ends_id tail.
Proof.
  induction s as [|c s IH]; simpl.
  - destruct (match_alts lits "") as [g'|] eqn:Hm; [|done].
    intros [= ->]. apply match_alts_sound in Hm as (lit & tail & Hin & H).
    by exists "", lit, tail.
  - destruct (match_alts lits (String c s)) as [g'|] eqn:Hm.
    + intros [= ->]. apply match_alts_sound in Hm as (lit & tail & Hin & H).
      by exists "", lit, tail.
    + intros (pre & lit & tail & Hin & -> & H)%IH.
      by exists (String c pre), lit, tail.
Qed.

Lemma first_match_sound ps url g :
  first_match ps url = Some g →
  ∃ pre lit tail, In lit (concat ps) ∧ url = pre ++ lit ++ g ++ tail
                  ∧ g ≠ "" ∧ id_chars g = true ∧ ends_id tail.
Proof.
  induction ps as [|p ps IH]; simpl; [done|].
  destruct (re_search p url) as [g'|] eqn:Hs.
  - intros [= ->]. apply re_search_sound in Hs as (pre & lit & tail & Hin & H).
    exists pre, lit, tail. split; [|done]. apply in_or_app. by left.
  - intros (pre & lit & tail & Hin & H)%IH.
    exists pre, lit, tail. split; [|done]. apply in_or_app. by right.
Qed.

(** X1: an identifier returned by [extract_video_id] is the longest run of
    characters other than [&], newline, [?] and [#] that follows one of the
    four literals somewhere in the URL: it is never empty and never holds
    one of these characters. *)
Theorem extract_video_id_sound (url g : string) :
  extract_video_id url = Some g →
  ∃ pre lit tail,
    In lit literals
    ∧ url = pre ++ lit ++ g ++ tail
    ∧ g ≠ ""
    ∧ id_chars g = true
    ∧ ends_id tail.
Proof. apply first_match_sound. Qed.

Lemma extract_video_id_sound_witness :
  extract_video_id "https://www.youtube.com/watch?v=dQw4w9WgXcQ&t=42"
    = Some "dQw4w9WgXcQ"
  ∧ ∃ pre lit tail,
      In lit literals
      ∧ "https://www.youtube.com/watch?v=dQw4w9WgXcQ&t=42"
        = pre ++ lit ++ "dQw4w9WgXcQ" ++ tail
      ∧ "dQw4w9WgXcQ" ≠ ""
      ∧ id_chars "dQw4w9WgXcQ" = true
      ∧ ends_id tail.
Proof.
  assert (H : extract_video_id "https://www.youtube.com/watch?v=dQw4w9WgXcQ&t=42"
              = Some "dQw4w9WgXcQ") by (exact eq_refl).
  split; [exact H|]. exact (extract_video_id_sound _ _ H).
Defined.

Lemma match_alts_complete lits lit s :
  In lit lits → is_Some (match_lit lit s) → is_Some (match_alts lits s).
Proof.
  induction lits as [|l lits IH]; simpl; [done|].
  intros [->|Hin] Hm.
  - destruct Hm as [g ->]. eauto.
  - destruct (match_lit l s); [eauto|]. by apply IH.
Qed.

Lemma re_search_complete lits pre s :
  is_Some (match_alts lits s) → is_Some (re_search lits (pre ++ s)).
Proof.
  intros Hm. induction pre as [|c pre IH]; app_simpl.
  - destruct s; simpl; destruct Hm as [g ->]; eauto.
  - destruct (match_alts lits (String c (pre ++ s))); [eauto|done].
Qed.

Lemma first_match_complete ps p url :
  In p ps → is_Some (re_search p url) → is_Some (first_match ps url).
Proof.
  induction ps as [|q ps IH]; simpl; [done|].
  intros [->|Hin] Hs.
  - destruct Hs as [g ->]. eauto.
  - destruct (re_search q url); [eauto|]. by apply IH.
Qed.

(** X2: a URL is recognised exactly when one of the four literals occurs in
    it followed by at least one character other than [&], newline, [?] and
    [#]; any other string is rejected. *)
Theorem extract_video_id_recognises (url : string) :
  is_Some (extract_video_id url) ↔
  ∃ pre lit c tail,
    In lit literals ∧ id_char c = true ∧ url = pre ++ lit ++ String c tail.
Proof.
  split.
  - intros [g (pre & lit & tail & Hin & -> & Hne & Hid & _)%first_match_sound].
    destruct g as [|c g]; [done|]. simpl in Hid.
    apply andb_true_iff in Hid as [Hc _].
    exists pre, lit, c, (g ++ tail). by split_and!.
  - intros (pre & lit & c & tail & Hin & Hc & ->).
    unfold literals in Hin. apply in_concat in Hin as (p & Hp & Hin).
    apply (first_match_complete patterns p); [done|].
    apply re_search_complete, (match_alts_complete p lit); [done|].
    unfold match_lit. rewrite prefix_append, drop_chars_append. simpl.
    rewrite Hc. eauto.
Qed.

(** ** [extract_video_id]: which identifier *)

Lemma prefix_cons_ne c c' lit s :
  c ≠ c' → String.prefix (String c lit) (String c' s) = false.
Proof. intros H. simpl. by destruct (ascii_dec c c'). Qed.

Lemma prefix_cons_eq c lit s :
  String.prefix (String c lit) (String c s) = String.prefix lit s.
Proof. simpl. by destruct (ascii_dec c c). Qed.

Ltac prefix_simpl :=
  rewrite ?append_cons, ?append_nil;
  repeat first [ rewrite prefix_cons_eq | rewrite prefix_cons_ne by done ].

Lemma match_lit_other_head lit c s :
  c ≠ "y"%char → In lit literals → match_lit lit (String c s) = None.
Proof.
  intros Hc Hin. unfold literals in Hin. simpl in Hin.
  unfold match_lit.
  destruct Hin as [<-|[<-|[<-|[<-|[]]]]];
    by rewrite prefix_cons_ne by done.
Qed.

Lemma match_alts_other_head lits c s :
  c ≠ "y"%char → (∀ lit, In lit lits → In lit literals) →
  match_alts lits (String c s) = None.
Proof.
  intros Hc. induction lits as [|lit lits IH]; intros Hsub; simpl; [done|].
  rewrite match_lit_other_head; [|done|by apply Hsub; left].
  apply IH. intros l Hl. apply Hsub. by right.
Qed.

Lemma re_search_skip lits pre s :
  (∀ lit, In lit lits → In lit literals) →
  lacks "y" pre = true →
  re_search lits (pre ++ s) = re_search lits s.
Proof.
  intros Hsub. induction pre as [|c pre IH]; app_simpl; [done|].
  intros [Hc Hpre]%andb_true_iff. apply negb_true_iff, Ascii.eqb_neq in Hc.
  rewrite match_alts_other_head by done. by apply IH.
Qed.

Lemma re_search_head lits s g :
  match_alts lits s = Some g → re_search lits s = Some g.
Proof. intros H. destruct s; simpl; by rewrite H. Qed.

Lemma re_search_cons lits c s :
  match_alts lits (String c s) = None →
  re_search lits (String c s) = re_search lits s.
Proof. intros H. cbn [re_search]. by rewrite H. Qed.

Lemma page_alts_legacy s :
  match_alts ["youtube.com/watch?v="; "youtu.be/"; "youtube.com/embed/"]
    (String "y" ("outube.com/v/" ++ s)) = None.
Proof. cbn [match_alts]. unfold match_lit. by prefix_simpl. Qed.

Lemma page_literals_sub lit :
  In lit ["youtube.com/watch?v="; "youtu.be/"; "youtube.com/embed/"] →
  In lit literals.
Proof. unfold literals. simpl. tauto. Qed.

(** X3: for the watch, short-link and embed shapes the identifier is read
    back exactly: when the text before the literal holds no [y], and the
    literal is followed by a non-empty identifier free of [&], newline, [?]
    and [#] that ends the URL or is followed by one of these characters,
    [extract_video_id] returns that identifier. *)
Theorem extract_video_id_exact (pre lit g tail : string) :
  lacks "y" pre = true →
  In lit ["youtube.com/watch?v="; "youtu.be/"; "youtube.com/embed/"] →
  g ≠ "" →
  id_chars g = true →
  ends_id tail →
  extract_video_id (pre ++ lit ++ g ++ tail) = Some g.
Proof.
  intros Hpre Hlit Hne Hg Ht. unfold extract_video_id, patterns. simpl.
  rewrite re_search_skip by (done || apply page_literals_sub).
  rewrite (re_search_head _ _ g); [done|].
  assert (Hm := λ l, match_lit_append l g tail Hne Hg Ht).
  simpl in Hlit. destruct Hlit as [<-|[<-|[<-|[]]]]; simpl.
  - by rewrite Hm.
  - rewrite Hm. unfold match_lit. by prefix_simpl.
  - rewrite Hm. unfold match_lit. by prefix_simpl.
Qed.

Lemma extract_video_id_exact_witness :
  lacks "y" "https://m." = true
  ∧ In "youtube.com/embed/"
       ["youtube.com/watch?v="; "youtu.be/"; "youtube.com/embed/"]
  ∧ "abc/DEF-123" ≠ ""
  ∧ id_chars "abc/DEF-123" = true
  ∧ ends_id "?rel=0&youtu.be/other"
  ∧ extract_video_id
      ("https://m." ++ "youtube.com/embed/" ++ "abc/DEF-123" ++ "?rel=0&youtu.be/other")
    = Some "abc/DEF-123".
Proof.
  assert (H1 : lacks "y" "https://m." = true) by reflexivity.
  assert (H2 : In "youtube.com/embed/"
                 ["youtube.com/watch?v="; "youtu.be/"; "youtube.com/embed/"])
    by (simpl; tauto).
  assert (H3 : "abc/DEF-123" ≠ "") by discriminate.
  assert (H4 : id_chars "abc/DEF-123" = true) by reflexivity.
  assert (H5 : ends_id "?rel=0&youtu.be/other")
    by (right; eexists _, _; split; reflexivity).
  split_and!; try assumption.
  exact (extract_video_id_exact _ _ _ _ H1 H2 H3 H4 H5).
Defined.

(** X4: the legacy [/v/] shape is tried after the three others over the
    whole URL: its identifier is returned when, besides the conditions of
    X3, no watch, short-link or embed shape occurs in the identifier or
    after it. *)
Theorem extract_video_id_legacy (pre g tail : string) :
  lacks "y" pre = true →
  g ≠ "" →
  id_chars g = true →
  ends_id tail →
  re_search ["youtube.com/watch?v="; "youtu.be/"; "youtube.com/embed/"] (g ++ tail)
    = None →
  extract_video_id (pre ++ "youtube.com/v/" ++ g ++ tail) = Some g.
Proof.
  intros Hpre Hne Hg Ht Hnone. unfold extract_video_id, patterns. simpl.
  rewrite (re_search_skip ["youtube.com/watch?v="; "youtu.be/"; "youtube.com/embed/"])
    by (done || apply page_literals_sub).
  rewrite (re_search_skip ["youtube.com/v/"])
    by (done || (unfold literals; simpl; tauto)).
  rewrite append_cons, re_search_cons by apply page_alts_legacy.
  rewrite (re_search_skip _ "outube.com/v/") by (done || apply page_literals_sub).
  rewrite Hnone, <- append_cons.
  rewrite (re_search_head ["youtube.com/v/"] _ g); [done|].
  cbn [match_alts]. by rewrite (match_lit_append "youtube.com/v/" g tail).
Qed.

Lemma extract_video_id_legacy_witness :
  lacks "y" "http://www." = true
  ∧ "xyz_9" ≠ ""
  ∧ id_chars "xyz_9" = true
  ∧ ends_id "#top"
  ∧ re_search ["youtube.com/watch?v="; "youtu.be/"; "youtube.com/embed/"]
      ("xyz_9" ++ "#top") = None
  ∧ extract_video_id ("http://www." ++ "youtube.com/v/" ++ "xyz_9" ++ "#top")
    = Some "xyz_9".
Proof.
  assert (H1 : lacks "y" "http://www." = true) by reflexivity.
  assert (H2 : "xyz_9" ≠ "") by discriminate.
  assert (H3 : id_chars "xyz_9" = true) by reflexivity.
  assert (H4 : ends_id "#top") by (right; eexists _, _; split; reflexivity).
  assert (H5 : re_search ["youtube.com/watch?v="; "youtu.be/"; "youtube.com/embed/"]
                 ("xyz_9" ++ "#top") = None) by (exact eq_refl).
  split_and!; try assumption.
  exact (extract_video_id_legacy _ _ _ H1 H2 H3 H4 H5).
Defined.

(** The first pattern wins wherever it matches, also behind a [/v/] shape. *)
Example watch_shape_wins :
  extract_video_id "http://youtube.com/v/AAA?next=youtu.be/BBB" = Some "BBB".
Proof. exact eq_refl. Qed.

(** ** Requests that never reach the extractor *)

Lemma gate_rejects (f : request → M response) req log :
  args_get req "apikey" ≠ Some API_KEY →
  require_api_key f req log
  = (inr (Response (Failed "Invalid or missing API key") 401), log).
Proof.
  intros Hkey. unfold require_api_key.
  rewrite (bool_decide_eq_false_2 _ Hkey). by rewrite orb_true_r.
Qed.

Lemma downloader_no_url (w : World) req :
  args_get req "apikey" = Some API_KEY →
  nonempty (args_get req "url") = false →
  serve (route_youtube_downloader w) req
  = (bad_request "URL parameter is required", []).
Proof.
  intros Hkey Hurl. unfold serve, route_youtube_downloader.
  rewrite require_api_key_accepts by done.
  unfold youtube_downloader, try_except. by rewrite Hurl.
Qed.

Lemma video_info_no_url (w : World) req :
  args_get req "apikey" = Some API_KEY →
  nonempty (args_get req "url") = false →
  serve (route_video_info w) req
  = (bad_request "URL parameter is required", []).
Proof.
  intros Hkey Hurl. unfold serve, route_video_info.
  rewrite require_api_key_accepts by done.
  unfold video_info, try_except. by rewrite Hurl.
Qed.

Lemma downloader_bad_url (w : World) req raw :
  args_get req "apikey" = Some API_KEY →
  args_get req "url" = Some raw →
  raw ≠ "" →
  extract_video_id (unquote w raw) = None →
  serve (route_youtube_downloader w) req
  = (bad_request "Invalid YouTube URL", []).
Proof.
  intros Hkey Hurl Hne Hid. unfold serve, route_youtube_downloader.
  rewrite require_api_key_accepts by done.
  unfold youtube_downloader, try_except. rewrite Hurl.
  change (default "" (Some raw)) with raw.
  replace (nonempty (Some raw)) with true by by destruct raw.
  by rewrite Hid.
Qed.

Lemma video_info_bad_url (w : World) req raw :
  args_get req "apikey" = Some API_KEY →
  args_get req "url" = Some raw →
  raw ≠ "" →
  extract_video_id (unquote w raw) = None →
  serve (route_video_info w) req
  = (bad_request "Invalid YouTube URL", []).
Proof.
  intros Hkey Hurl Hne Hid. unfold serve, route_video_info.
  rewrite require_api_key_accepts by done.
  unfold video_info, try_except. rewrite Hurl.
  change (default "" (Some raw)) with raw.
  replace (nonempty (Some raw)) with true by by destruct raw.
  by rewrite Hid.
Qed.

(** X5: with the right key, a request whose [url] parameter is absent or
    empty is answered 400 ['URL parameter is required'] by both endpoints,
    whatever its other parameters, and the extractor is not called. *)
Theorem missing_url_is_rejected (w : World) (req : request) :
  args_get req "apikey" = Some API_KEY →
  (args_get req "url" = None ∨ args_get req "url" = Some "") →
  serve (route_youtube_downloader w) req
    = (Response (Failed "URL parameter is required") 400, [])
  ∧ serve (route_video_info w) req
    = (Response (Failed "URL parameter is required") 400, []).
Proof.
  intros Hkey Hurl.
  assert (nonempty (args_get req "url") = false) by by destruct Hurl as [->| ->].
  split; [by apply downloader_no_url|by apply video_info_no_url].
Qed.

Lemma missing_url_is_rejected_witness :
  args_get (Request [("apikey", API_KEY); ("url", ""); ("format", "mp3")]) "apikey"
    = Some API_KEY
  ∧ serve (route_youtube_downloader (fake (inr (doc 212)) (inr single_doc)))
          (Request [("apikey", API_KEY); ("url", ""); ("format", "mp3")])
    = (Response (Failed "URL parameter is required") 400, [])
  ∧ serve (route_video_info (fake (inr (doc 212)) (inr single_doc)))
          (Request [("apikey", API_KEY); ("url", ""); ("format", "mp3")])
    = (Response (Failed "URL parameter is required") 400, []).
Proof.
  split; [reflexivity|].
  exact (missing_url_is_rejected (fake (inr (doc 212)) (inr single_doc))
           (Request [("apikey", API_KEY); ("url", ""); ("format", "mp3")])
           eq_refl (or_intror eq_refl)).
Defined.

(** X6: with the right key, a request whose decoded [url] holds none of
    the four URL shapes is answered 400 ['Invalid YouTube URL'] by both
    endpoints, and the extractor is not called. *)
Theorem unrecognised_url_is_rejected (w : World) (req : request) (raw : string) :
  args_get req "apikey" = Some API_KEY →
  args_get req "url" = Some raw →
  raw ≠ "" →
  extract_video_id (unquote w raw) = None →
  serve (route_youtube_downloader w) req
    = (Response (Failed "Invalid YouTube URL") 400, [])
  ∧ serve (route_video_info w) req
    = (Response (Failed "Invalid YouTube URL") 400, []).
Proof.
  intros Hkey Hurl Hne Hid.
  split; [by eapply downloader_bad_url|by eapply video_info_bad_url].
Qed.

Lemma unrecognised_url_is_rejected_witness :
  args_get (Request [("url", "https://vimeo.com/watch?v=abc"); ("apikey", API_KEY)])
    "apikey" = Some API_KEY
  ∧ extract_video_id
      (unquote (fake (inr (doc 212)) (inr single_doc)) "https://vimeo.com/watch?v=abc")
    = None
  ∧ serve (route_youtube_downloader (fake (inr (doc 212)) (inr single_doc)))
          (Request [("url", "https://vimeo.com/watch?v=abc"); ("apikey", API_KEY)])
    = (Response (Failed "Invalid YouTube URL") 400, [])
  ∧ serve (route_video_info (fake (inr (doc 212)) (inr single_doc)))
          (Request [("url", "https://vimeo.com/watch?v=abc"); ("apikey", API_KEY)])
    = (Response (Failed "Invalid YouTube URL") 400, []).
Proof.
  assert (Hid : extract_video_id
            (unquote (fake (inr (doc 212)) (inr single_doc))
               "https://vimeo.com/watch?v=abc") = None)
    by (exact eq_refl).
  split_and!; [reflexivity|exact Hid|..];
    apply (unrecognised_url_is_rejected (fake (inr (doc 212)) (inr single_doc))
             (Request [("url", "https://vimeo.com/watch?v=abc"); ("apikey", API_KEY)])
             "https://vimeo.com/watch?v=abc" eq_refl eq_refl);
    (discriminate || exact Hid).
Defined.

(** ** Every request: answers and extractor calls *)

Lemma try_except_returns {A} (m : M A) (g : pyexn → A) log :
  ∃ a log', try_except m (λ e, ret (g e)) log = (inr a, log').
Proof.
  unfold try_except, ret. destruct (m log) as [[e|a] log']; eauto.
Qed.

Lemma route_returns (f : request → M response) req :
  (∀ log, ∃ r log', f req log = (inr r, log')) →
  ∃ r log, require_api_key f req [] = (inr r, log)
           ∧ serve (require_api_key f) req = (r, log).
Proof.
  intros Hf. unfold serve, require_api_key.
  destruct (negb _ || negb _); [by eexists _, _|].
  destruct (Hf []) as (r & log & ->). by eexists _, _.
Qed.

Lemma respond_status format_type quality (info : gmap string pyval) :
  (status_code (respond format_type quality info) = 200
   ∧ ∃ vi links, resp_body (respond format_type quality info)
                 = DownloadOk vi links format_type quality)
  ∨ (status_code (respond format_type quality info) = 500
     ∧ ∃ error, resp_body (respond format_type quality info) = Failed error).
Proof.
  unfold respond.
  destruct (download_links _ _ _) as [e|links]; [right; eauto|].
  destruct (trimmed_description info) as [e|d]; [right; eauto|left; eauto].
Qed.

Lemma valid_or_not (w : World) req :
  args_get req "apikey" ≠ Some API_KEY
  ∨ (args_get req "apikey" = Some API_KEY ∧ nonempty (args_get req "url") = false)
  ∨ (∃ raw, args_get req "apikey" = Some API_KEY ∧ args_get req "url" = Some raw
            ∧ raw ≠ "" ∧ extract_video_id (unquote w raw) = None)
  ∨ ∃ url, valid_request w req url.
Proof.
  destruct (decide (args_get req "apikey" = Some API_KEY)) as [Hkey|]; [|by left].
  right. destruct (args_get req "url") as [raw|] eqn:Hurl; [|by left].
  destruct raw as [|c raw]; [by left|]. right.
  destruct (extract_video_id (unquote w (String c raw))) as [g|] eqn:Hid.
  - right. exists (unquote w (String c raw)). split; [done|].
    exists (String c raw). split_and!; done.
  - left. by exists (String c raw).
Qed.

(** X7: whatever the request and the extractor, the download endpoint
    returns a response (no exception escapes to the 500 error handler);
    the status is 401, 400, 200 or 500; a 401 makes no extractor call, a 400
    makes none or the probe alone, and a 200 or 500 makes exactly two: the
    probe, then one resolve-mode call for the same URL with the options of
    the requested format and quality.  A 200 carries the links body, any
    other status the error body. *)
Theorem downloader_outcomes (w : World) (req : request) :
  ∃ r log,
    route_youtube_downloader w req [] = (inr r, log)
    ∧ serve (route_youtube_downloader w) req = (r, log)
    ∧ ((status_code r = 401 ∧ log = [])
       ∨ (status_code r = 400 ∧ (log = [] ∨ ∃ url, log = [Call probe_opts url]))
       ∨ ((status_code r = 200 ∨ status_code r = 500)
          ∧ ∃ url, log = [Call probe_opts url;
                          Call (resolve_opts (format_of req) (quality_of req)) url]))
    ∧ ((status_code r = 200
        ∧ ∃ vi links format quality, resp_body r = DownloadOk vi links format quality)
       ∨ (status_code r ≠ 200 ∧ ∃ error, resp_body r = Failed error)).
Proof.
  destruct (route_returns (youtube_downloader w) req) as (r & log & Hr & Hs).
  { intros log. apply try_except_returns. }
  exists r, log. split; [done|]. split; [done|].
  revert Hs. fold (route_youtube_downloader w).
  destruct (valid_or_not w req) as [Hkey|[[Hkey Hurl]|[(raw & Hkey & Hurl & Hne & Hid)|[url Hv]]]].
  - unfold serve, route_youtube_downloader. rewrite gate_rejects by done.
    intros [= <- <-]. split; [by left|right; split; [done|eauto]].
  - rewrite downloader_no_url by done. intros [= <- <-].
    split; [right; left; eauto|right; split; [done|eauto]].
  - rewrite (downloader_bad_url w req raw) by done. intros [= <- <-].
    split; [right; left; eauto|right; split; [done|eauto]].
  - destruct (get_video_info_total w url []) as (info & error & Hinfo).
    simpl in Hinfo. destruct (nonempty error) eqn:Herr.
    + destruct error as [[|c error]|]; try done.
      rewrite (downloader_probe_failed w req url Hv _ _ _ Hinfo) by done.
      intros [= <- <-]. split; [right; left; eauto|right; split; [done|eauto]].
    + destruct (extract_info w [Call probe_opts url]
                  (resolve_opts (format_of req) (quality_of req)) url)
        as [e|info'] eqn:Hres.
      * rewrite (downloader_resolve_raised w req url Hv _ _ _ e Hinfo Herr Hres).
        intros [= <- <-]. split; [right; right; eauto|right; split; [done|eauto]].
      * rewrite (downloader_resolved w req url Hv _ _ _ info' Hinfo Herr Hres).
        intros [= <- <-]. split.
        -- right; right. split; [|eauto].
           destruct (respond_status (format_of req) (quality_of req) info')
             as [[-> _]|[-> _]]; auto.
        -- destruct (respond_status (format_of req) (quality_of req) info')
             as [[Hc (vi & links & Hb)]|[Hc Hb]]; [left; eauto 6|right].
           split; [by rewrite Hc|done].
Qed.

Lemma video_info_after_probe (w : World) (req : request) (url : string)
    info error log :
  valid_request w req url →
  get_video_info w url [] = (inr (info, error), log) →
  serve (route_video_info w) req
  = (if nonempty error then bad_request (default "" error)
     else match info with
          | None =>
              Response (Failed ("Failed to get video info: "
                                  ++ exn_text none_has_no_get)) 500
          | Some info =>
              match slice_to 10 (iget_def info "tags" (PList [])) with
              | inl e =>
                  Response (Failed ("Failed to get video info: " ++ exn_text e)) 500
              | inr tags => ok (InfoOk (full_video_info info tags))
              end
          end, log).
Proof.
  intros (Hkey & raw & Hraw & Hne & -> & Hid) Hprobe.
  unfold serve, route_video_info.
  rewrite require_api_key_accepts by done.
  unfold video_info, try_except, mbind, M_bind, bind.
  rewrite Hraw. change (default "" (Some raw)) with raw.
  replace (nonempty (Some raw)) with true by by destruct raw.
  rewrite extract_video_id_nonempty by done. cbn [negb].
  rewrite Hprobe. destruct (nonempty error); [done|].
  destruct info as [info|]; [|done]. unfold lift.
  by destruct (slice_to 10 (iget_def info "tags" (PList []))).
Qed.

Lemma get_video_info_outcome (w : World) url log :
  (∃ info, get_video_info w url log
           = (inr (Some info, None), app log [Call probe_opts url]))
  ∨ (∃ error, get_video_info w url log
              = (inr (None, Some error), app log [Call probe_opts url])).
Proof.
  unfold get_video_info, try_except, mbind, M_bind, bind, call_extract.
  destruct (extract_info w log probe_opts url) as [e|info]; [by eauto|].
  destruct (iget_def info "duration" (PScalar (PInt 0))) as [[|d|]|]; simpl;
    try by eauto.
  destruct (Z.ltb MAX_DURATION d); by eauto.
Qed.

(** X8: whatever the request and the extractor, the info endpoint returns
    a response (no exception escapes); the status is 401, 400, 200 or 500;
    it calls the extractor at most once, in probe mode, and never in
    resolve mode; a 401 makes no call, and a 200 or 500 comes after the
    probe.  A 200 carries the info body, any other status the error body. *)
Theorem video_info_outcomes (w : World) (req : request) :
  ∃ r log,
    route_video_info w req [] = (inr r, log)
    ∧ serve (route_video_info w) req = (r, log)
    ∧ ((status_code r = 401 ∧ log = [])
       ∨ (status_code r = 400 ∧ (log = [] ∨ ∃ url, log = [Call probe_opts url]))
       ∨ ((status_code r = 200 ∨ status_code r = 500)
          ∧ ∃ url, log = [Call probe_opts url]))
    ∧ (∀ format_type quality u, Call (resolve_opts format_type quality) u ∉ log)
    ∧ ((status_code r = 200 ∧ ∃ vi, resp_body r = InfoOk vi)
       ∨ (status_code r ≠ 200 ∧ ∃ error, resp_body r = Failed error)).
Proof.
  destruct (route_returns (video_info w) req) as (r & log & Hr & Hs).
  { intros log. apply try_except_returns. }
  exists r, log. split; [done|]. split; [done|].
  assert (Hprobe_only : ∀ url ft q u,
            Call (resolve_opts ft q) u ∉ [Call probe_opts url]).
  { intros url ft q u [= Hc _]%list_elem_of_singleton.
    by apply (probe_is_not_resolve ft q). }
  assert (Hnone : ∀ ft q u, Call (resolve_opts ft q) u ∉ @nil call).
  { intros ft q u H. by apply elem_of_nil in H. }
  revert Hs. fold (route_video_info w).
  destruct (valid_or_not w req)
    as [Hkey|[[Hkey Hurl]|[(raw & Hkey & Hurl & Hne & Hid)|[url Hv]]]].
  - unfold serve, route_video_info. rewrite gate_rejects by done.
    intros [= <- <-]. split_and!; [by left|done|right; split; [done|eauto]].
  - rewrite video_info_no_url by done. intros [= <- <-].
    split_and!; [right; left; eauto|done|right; split; [done|eauto]].
  - rewrite (video_info_bad_url w req raw) by done. intros [= <- <-].
    split_and!; [right; left; eauto|done|right; split; [done|eauto]].
  - destruct (get_video_info_outcome w url []) as [[info Hinfo]|[error Hinfo]];
      simpl in Hinfo;
      rewrite (video_info_after_probe w req url _ _ _ Hv Hinfo);
      cbn [nonempty].
    + destruct (slice_to 10 (iget_def info "tags" (PList []))) as [e|tags];
        intros [= <- <-].
      * split_and!; [right; right; eauto|done|right; split; [done|eauto]].
      * split_and!; [right; right; eauto|done|left; split; [done|eauto]].
    + destruct error as [|c error]; intros [= <- <-].
      * split_and!; [right; right; eauto|done|right; split; [done|eauto]].
      * split_and!; [right; left; eauto|done|right; split; [done|eauto]].
Qed.

(** ** The probe on the info endpoint and on odd documents *)

(** X9: on the info endpoint too, an error of the probe with a non-empty
    text is answered 400 with that text, and a duration above the ceiling
    is answered 400 with the too-long message; the probe is the only
    call. *)
Theorem video_info_probe_failures (w : World) (req : request) (url : string) :
  valid_request w req url →
  (∀ e, extract_info w [] probe_opts url = inl e →
        exn_text e ≠ "" →
        serve (route_video_info w) req
        = (Response (Failed (exn_text e)) 400, [Call probe_opts url]))
  ∧ (∀ info d,
        extract_info w [] probe_opts url = inr info →
        info !! "duration" = Some (PScalar (PInt d)) →
        MAX_DURATION < d →
        serve (route_video_info w) req
        = (Response (Failed ("Video too long (" ++ pretty d
                               ++ "s). Maximum allowed: 3600s")) 400,
           [Call probe_opts url])).
Proof.
  intros Hv. split.
  - intros e Hprobe Htext.
    rewrite (video_info_after_probe w req url None (Some (exn_text e))
               [Call probe_opts url] Hv)
      by by apply get_video_info_raised.
    by destruct (exn_text e).
  - intros info d Hprobe Hd Hlt.
    rewrite (video_info_after_probe w req url None (Some (too_long d))
               [Call probe_opts url] Hv)
      by by apply (get_video_info_too_long w url [] info d).
    done.
Qed.

Lemma video_info_probe_failures_witness :
  valid_request (fake (inr (doc 7200)) (inr single_doc))
                (sample_request "mp4" "best") sample_url
  ∧ serve (route_video_info (fake (inr (doc 7200)) (inr single_doc)))
          (sample_request "mp4" "best")
    = (Response (Failed "Video too long (7200s). Maximum allowed: 3600s") 400,
       [Call probe_opts sample_url]).
Proof.
  assert (Hv := sample_request_valid (inr (doc 7200)) (inr single_doc) "mp4" "best").
  split; [exact Hv|].
  refine (proj2 (video_info_probe_failures _ _ _ Hv) (doc 7200) 7200 eq_refl _ _).
  - exact eq_refl.
  - unfold MAX_DURATION. lia.
Defined.

Lemma get_video_info_bad_duration (w : World) url log info v :
  extract_info w log probe_opts url = inr info →
  info !! "duration" = Some v →
  (∀ d, v ≠ PScalar (PInt d)) →
  get_video_info w url log
  = (inr (None, Some (exn_text (cmp_error ">" (tyname_val v) "int"))),
     app log [Call probe_opts url]).
Proof.
  intros H Hd Hv. unfold get_video_info, try_except, mbind, M_bind, bind, call_extract.
  rewrite H. unfold iget_def. rewrite Hd. simpl.
  destruct v as [[|d|s]|l]; try done. by destruct (Hv d).
Qed.

(** X10: a probed document whose [duration] is present but is no number
    ([None], a string, a list) does not pass as a missing duration does:
    the comparison raises inside [get_video_info], and both endpoints
    answer 400 with the text of the [TypeError], after the probe alone. *)
Theorem non_numeric_duration_is_rejected (w : World) (req : request)
    (url : string) (info : gmap string pyval) (v : pyval) :
  valid_request w req url →
  extract_info w [] probe_opts url = inr info →
  info !! "duration" = Some v →
  (∀ d, v ≠ PScalar (PInt d)) →
  serve (route_youtube_downloader w) req
    = (Response (Failed ("'>' not supported between instances of '"
                           ++ tyname_val v ++ "' and 'int'")) 400,
       [Call probe_opts url])
  ∧ serve (route_video_info w) req
    = (Response (Failed ("'>' not supported between instances of '"
                           ++ tyname_val v ++ "' and 'int'")) 400,
       [Call probe_opts url]).
Proof.
  intros Hv Hprobe Hd Hnum.
  assert (Hinfo := get_video_info_bad_duration w url [] info v Hprobe Hd Hnum).
  simpl in Hinfo. split.
  - by apply (downloader_probe_failed w req url Hv None).
  - by rewrite (video_info_after_probe w req url _ _ _ Hv Hinfo).
Qed.

Lemma non_numeric_duration_is_rejected_witness :
  valid_request
    (fake (inr (<["duration" := PScalar PNone]> (doc 212))) (inr single_doc))
    (sample_request "mp4" "best") sample_url
  ∧ serve (route_youtube_downloader
             (fake (inr (<["duration" := PScalar PNone]> (doc 212))) (inr single_doc)))
          (sample_request "mp4" "best")
    = (Response
         (Failed "'>' not supported between instances of 'NoneType' and 'int'") 400,
       [Call probe_opts sample_url])
  ∧ serve (route_video_info
             (fake (inr (<["duration" := PScalar PNone]> (doc 212))) (inr single_doc)))
          (sample_request "mp4" "best")
    = (Response
         (Failed "'>' not supported between instances of 'NoneType' and 'int'") 400,
       [Call probe_opts sample_url]).
Proof.
  assert (Hv := sample_request_valid
                  (inr (<["duration" := PScalar PNone]> (doc 212)))
                  (inr single_doc) "mp4" "best").
  split; [exact Hv|].
  refine (non_numeric_duration_is_rejected _ _ _
            (<["duration" := PScalar PNone]> (doc 212)) (PScalar PNone)
            Hv eq_refl _ _).
  - exact eq_refl.
  - intros d. discriminate.
Defined.

(** X11: an error of the probe whose text is empty is not seen by
    [if error:]: the download endpoint goes on to the resolve-mode call and
    does not answer 400, and the info endpoint, left without a document,
    answers 500. *)
Theorem empty_probe_error_is_not_seen (w : World) (req : request) (url : string)
    (e : pyexn) :
  valid_request w req url →
  extract_info w [] probe_opts url = inl e →
  exn_text e = "" →
  snd (serve (route_youtube_downloader w) req)
    = [Call probe_opts url;
       Call (resolve_opts (format_of req) (quality_of req)) url]
  ∧ status_code (fst (serve (route_youtube_downloader w) req)) ≠ 400
  ∧ serve (route_video_info w) req
    = (Response (Failed ("Failed to get video info: "
                           ++ "'NoneType' object has no attribute 'get'")) 500,
       [Call probe_opts url]).
Proof.
  intros Hv Hprobe Htext.
  assert (Hinfo := get_video_info_raised w url [] e Hprobe).
  rewrite Htext in Hinfo. simpl in Hinfo.
  split_and!;
    [destruct (extract_info w [Call probe_opts url]
                 (resolve_opts (format_of req) (quality_of req)) url)
       as [e'|info] eqn:Hres..|].
  - by rewrite (downloader_resolve_raised w req url Hv _ _ _ e' Hinfo eq_refl Hres).
  - by rewrite (downloader_resolved w req url Hv _ _ _ info Hinfo eq_refl Hres).
  - by rewrite (downloader_resolve_raised w req url Hv _ _ _ e' Hinfo eq_refl Hres).
  - rewrite (downloader_resolved w req url Hv _ _ _ info Hinfo eq_refl Hres).
    cbn [fst]. by destruct (respond_status (format_of req) (quality_of req) info)
      as [[-> _]|[-> _]].
  - by rewrite (video_info_after_probe w req url _ _ _ Hv Hinfo).
Qed.

Lemma empty_probe_error_is_not_seen_witness :
  valid_request (fake (inl (Exn "")) (inr single_doc))
                (sample_request "mp4" "best") sample_url
  ∧ snd (serve (route_youtube_downloader (fake (inl (Exn "")) (inr single_doc)))
               (sample_request "mp4" "best"))
    = [Call probe_opts sample_url; Call (resolve_opts "mp4" "best") sample_url]
  ∧ serve (route_video_info (fake (inl (Exn "")) (inr single_doc)))
          (sample_request "mp4" "best")
    = (Response (Failed "Failed to get video info: 'NoneType' object has no attribute 'get'")
                500,
       [Call probe_opts sample_url]).
Proof.
  assert (Hv := sample_request_valid (inl (Exn "")) (inr single_doc) "mp4" "best").
  split; [exact Hv|].
  destruct (empty_probe_error_is_not_seen _ _ _ (Exn "") Hv eq_refl eq_refl)
    as (Hlog & _ & Hi).
  split; [exact Hlog|exact Hi].
Defined.

(** X12: on the info endpoint a [tags] entry that is present but is
    neither a list nor a string ([None], a number) cannot be sliced: the
    answer is 500 with the text of the [TypeError], after the probe
    alone. *)
Theorem unsliceable_tags_fail (w : World) (req : request) (url : string)
    (info : gmap string pyval) (v : scalar) :
  valid_request w req url →
  extract_info w [] probe_opts url = inr info →
  (info !! "duration" = None
   ∨ ∃ d, info !! "duration" = Some (PScalar (PInt d)) ∧ d ≤ MAX_DURATION) →
  info !! "tags" = Some (PScalar v) →
  (∀ s, v ≠ PStr s) →
  serve (route_video_info w) req
  = (Response (Failed ("Failed to get video info: '" ++ tyname v
                         ++ "' object is not subscriptable")) 500,
     [Call probe_opts url]).
Proof.
  intros Hv Hprobe Hd Htags Hstr.
  rewrite (video_info_after_probe w req url (Some info) None
             [Call probe_opts url] Hv)
    by by apply (get_video_info_passes w url [] info).
  unfold iget_def. rewrite Htags. cbn [nonempty default].
  destruct v as [|n|s]; try done. by destruct (Hstr s).
Qed.

Lemma unsliceable_tags_fail_witness :
  valid_request
    (fake (inr (<["tags" := PScalar PNone]> (doc 212))) (inr single_doc))
    (sample_request "mp4" "best") sample_url
  ∧ serve (route_video_info
             (fake (inr (<["tags" := PScalar PNone]> (doc 212))) (inr single_doc)))
          (sample_request "mp4" "best")
    = (Response
         (Failed "Failed to get video info: 'NoneType' object is not subscriptable")
         500,
       [Call probe_opts sample_url]).
Proof.
  assert (Hv := sample_request_valid
                  (inr (<["tags" := PScalar PNone]> (doc 212)))
                  (inr single_doc) "mp4" "best").
  split; [exact Hv|].
  refine (unsliceable_tags_fail _ _ _ (<["tags" := PScalar PNone]> (doc 212)) PNone
            Hv eq_refl _ _ _).
  - right. exists 212. split; [exact eq_refl|unfold MAX_DURATION; lia].
  - exact eq_refl.
  - intros s. discriminate.
Defined.

(** ** What the selector returns *)

Lemma dicts_of_map (formats : list (gmap string scalar)) :
  dicts_of (map IDict formats) = inr formats.
Proof. induction formats as [|f l IH]; simpl; [done|]. by rewrite IH. Qed.

Lemma descending_filter {A} (rank : A → Z) (p : A → bool) l :
  descending rank l → descending rank (List.filter p l).
Proof.
  induction 1 as [|x l Hs IH Hx]; simpl; [constructor|].
  destruct (p x); [|done]. constructor; [done|]. by apply Forall_filter_bool.
Qed.

Lemma In_take {A} (x : A) n l : In x (take n l) → In x l.
Proof. rewrite <- !list_elem_of_In. apply subseteq_take. Qed.

Lemma descending_take {A} (rank : A → Z) n l :
  descending rank l → descending rank (take n l).
Proof.
  intros Hs. revert n. induction Hs as [|x l Hs IH Hx]; intros [|n]; simpl;
    try constructor; [by apply IH|].
  rewrite Forall_forall in *. intros y Hy. apply Hx.
  by apply (subseteq_take n l).
Qed.

Lemma descending_app {A} (rank : A → Z) l1 l2 x y :
  descending rank (l1 ++ l2)%list → In x l1 → In y l2 → rank y ≤ rank x.
Proof.
  induction l1 as [|z l1 IH]; simpl; [done|].
  intros [Hs Hz]%StronglySorted_inv [->|Hx] Hy.
  - rewrite Forall_forall in Hz. apply Hz, list_elem_of_In, in_or_app. by right.
  - by apply IH.
Qed.

Lemma link_info_url format_type (f : gmap string scalar) :
  link_info format_type f !! "url" = Some (PScalar (get f "url")).
Proof. unfold link_info. destruct (negb _); by simplify_map_eq. Qed.

(** X13: for a document whose catalog is a list of descriptors with
    numeric ranking values where present, [download_links] succeeds with at
    most five links, built in descending rank order from descriptors of
    the catalog that pass the kind filter; every link has a non-empty
    [url]; and every descriptor of the kind left outside the first five of
    the ranking ranks no higher than any descriptor returned. *)
Theorem download_links_invariants (format_type quality : string)
    (info : gmap string pyval) (formats : list (gmap string scalar)) :
  info !! "formats" = Some (PList (map IDict formats)) →
  Forall (rankable format_type) (List.filter (keep format_type) formats) →
  ∃ sorted sel,
    Permutation (List.filter (keep format_type) formats) sorted
    ∧ descending (rank_of format_type) sorted
    ∧ sel = List.filter has_url (take 5 sorted)
    ∧ download_links format_type quality info
      = inr (map (link_info format_type) sel)
    ∧ (length sel ≤ 5)%nat
    ∧ descending (rank_of format_type) sel
    ∧ (∀ f, In f sel →
            In f formats ∧ keep format_type f = true
            ∧ ∃ u, link_info format_type f !! "url" = Some (PScalar u)
                   ∧ truthy u = true)
    ∧ (∀ f g, In f sel → In g (drop 5 sorted) →
              rank_of format_type g ≤ rank_of format_type f).
Proof.
  intros Hf Hrank.
  set (kept := List.filter (keep format_type) formats) in *.
  set (sorted := sort_z (rank_of format_type) kept).
  exists sorted, (List.filter has_url (take 5 sorted)).
  assert (Hperm : Permutation kept sorted) by apply sort_z_perm.
  assert (Hdesc : descending (rank_of format_type) sorted)
    by apply sort_z_descending.
  split_and!; try done.
  - unfold download_links. rewrite Hf. simpl. rewrite dicts_of_map. simpl.
    unfold select_formats. fold kept. by rewrite sort_desc_rankable.
  - etrans; [apply filter_length_le|]. apply firstn_le_length.
  - by apply descending_filter, descending_take.
  - intros f [Hin Hurl]%filter_In. apply In_take in Hin.
    apply (Permutation_in _ (Permutation_sym Hperm)), filter_In in Hin
      as [Hin Hkeep].
    split_and!; try done. exists (get f "url"). by rewrite link_info_url.
  - intros f g [Hin _]%filter_In Hg.
    apply (descending_app _ (take 5 sorted) (drop 5 sorted)); try done.
    by rewrite take_drop.
Qed.

Lemma download_links_invariants_witness :
  with_formats catalog_top_missing (doc 212) !! "formats"
    = Some (PList (map IDict catalog_top_missing))
  ∧ Forall (rankable "mp4") (List.filter (keep "mp4") catalog_top_missing)
  ∧ ∃ sorted sel,
      Permutation (List.filter (keep "mp4") catalog_top_missing) sorted
      ∧ descending (rank_of "mp4") sorted
      ∧ sel = List.filter has_url (take 5 sorted)
      ∧ download_links "mp4" "144p" (with_formats catalog_top_missing (doc 212))
        = inr (map (link_info "mp4") sel)
      ∧ (length sel ≤ 5)%nat
      ∧ descending (rank_of "mp4") sel
      ∧ (∀ f, In f sel →
              In f catalog_top_missing ∧ keep "mp4" f = true
              ∧ ∃ u, link_info "mp4" f !! "url" = Some (PScalar u)
                     ∧ truthy u = true)
      ∧ (∀ f g, In f sel → In g (drop 5 sorted) →
                rank_of "mp4" g ≤ rank_of "mp4" f).
Proof.
  assert (Hf : with_formats catalog_top_missing (doc 212) !! "formats"
               = Some (PList (map IDict catalog_top_missing)))
    by (exact eq_refl).
  assert (Hr : Forall (rankable "mp4") (List.filter (keep "mp4") catalog_top_missing)).
  { apply Forall_filter_bool. unfold catalog_top_missing.
    do 6 (apply List.Forall_cons; [apply rankable_video|]).
    apply List.Forall_cons; [right; exists 1080; exact eq_refl|].
    apply List.Forall_cons; [apply rankable_video|].
    apply List.Forall_nil. }
  split_and!; [exact Hf|exact Hr|].
  exact (download_links_invariants "mp4" "144p" _ _ Hf Hr).
Defined.

Lemma insert_desc_length {A} (key : A → scalar) x l r :
  insert_desc key x l = inr r → length r = S (length l).
Proof.
  revert r. induction l as [|y l IH]; simpl; intros r.
  - by intros [= <-].
  - destruct (py_lt (key x) (key y)) as [e|[|]]; [done| |by intros [= <-]].
    destruct (insert_desc key x l) as [e|r']; [done|].
    intros [= <-]. simpl. by rewrite (IH r').
Qed.

Lemma sort_desc_length {A} (key : A → scalar) l r :
  sort_desc key l = inr r → length r = length l.
Proof.
  revert r. induction l as [|x l IH]; simpl; intros r.
  - by intros [= <-].
  - destruct (sort_desc key l) as [e|r']; [done|].
    intros ->%insert_desc_length. by rewrite (IH r').
Qed.

Lemma sort_desc_none_raises {A} (key : A → scalar) l x :
  In x l → key x = PNone → (2 ≤ length l)%nat →
  ∃ e, sort_desc key l = inl e.
Proof.
  induction l as [|y l IH]; simpl; [done|]. intros Hin Hx Hlen.
  destruct (sort_desc key l) as [e|r] eqn:Hs; [by eauto|].
  pose proof (sort_desc_length key l r Hs) as Hr.
  destruct Hin as [->|Hin].
  - destruct r as [|z r]; [simpl in Hr; lia|]. simpl. rewrite Hx. simpl. eauto.
  - destruct l as [|z [|z' l]]; [done| |].
    + destruct Hin as [->|[]]. simpl in Hs. injection Hs as <-.
      simpl. rewrite Hx. destruct (key y); simpl; eauto.
    + destruct IH as [e He]; [done|done|simpl; lia|]. congruence.
Qed.

(** X14: a ranking value that is present but [None] is not treated as
    missing: as soon as two or more descriptors pass the kind filter and
    one of them has [None] under the ranking key, the sort raises and the
    download endpoint's answer for that document is a 500. *)
Theorem none_rank_fails (format_type quality : string)
    (info : gmap string pyval) (formats : list (gmap string scalar))
    (f : gmap string scalar) :
  info !! "formats" = Some (PList (map IDict formats)) →
  In f (List.filter (keep format_type) formats) →
  f !! rank_field format_type = Some PNone →
  (2 ≤ length (List.filter (keep format_type) formats))%nat →
  (∃ e, select_formats format_type formats = inl e)
  ∧ ∃ error,
      respond format_type quality info
      = Response (Failed ("Failed to process video: " ++ error)) 500.
Proof.
  intros Hf Hin Hnone Hlen.
  assert (Hkey : sort_key format_type f = PNone).
  { revert Hnone. unfold sort_key, rank_field, abr_key, height_key, get_def.
    destruct (String.eqb format_type "mp3"); by intros ->. }
  destruct (sort_desc_none_raises (sort_key format_type) _ f Hin Hkey Hlen)
    as [e He].
  assert (Hsel : select_formats format_type formats = inl e)
    by (unfold select_formats; by rewrite He).
  split; [eauto|]. exists (exn_text e).
  unfold respond, download_links. rewrite Hf. simpl.
  by rewrite dicts_of_map; simpl; rewrite Hsel.
Qed.

Lemma none_rank_fails_witness :
  with_formats [video "a" 144; <["height" := PNone]> (video "b" 0)] (doc 212)
    !! "formats"
    = Some (PList (map IDict [video "a" 144; <["height" := PNone]> (video "b" 0)]))
  ∧ (∃ e, select_formats "mp4"
            [video "a" 144; <["height" := PNone]> (video "b" 0)] = inl e)
  ∧ ∃ error,
      respond "mp4" "best"
        (with_formats [video "a" 144; <["height" := PNone]> (video "b" 0)] (doc 212))
      = Response (Failed ("Failed to process video: " ++ error)) 500.
Proof.
  assert (Hf : with_formats [video "a" 144; <["height" := PNone]> (video "b" 0)]
                 (doc 212) !! "formats"
               = Some (PList (map IDict
                    [video "a" 144; <["height" := PNone]> (video "b" 0)])))
    by (exact eq_refl).
  split; [exact Hf|].
  refine (none_rank_fails "mp4" "best" _ _ (<["height" := PNone]> (video "b" 0))
            Hf _ _ _).
  - right. left. reflexivity.
  - exact eq_refl.
  - vm_compute. lia.
Defined.

(** A single descriptor is never compared: its [None] passes. *)
Example lone_none_rank_passes :
  select_formats "mp4" [<["height" := PNone]> (video "b" 0)]
  = inr [<["height" := PNone]> (video "b" 0)].
Proof. exact eq_refl. Qed.

(** X15: when no descriptor of the catalog passes the kind filter (an
    [mp3] request on a catalog of video formats, say), or the catalog is
    empty, the endpoint does not fail: [download_links] is the empty
    list. *)
Theorem no_matching_kind_gives_no_links (format_type quality : string)
    (info : gmap string pyval) (formats : list (gmap string scalar)) :
  info !! "formats" = Some (PList (map IDict formats)) →
  Forall (λ f, keep format_type f = false) formats →
  download_links format_type quality info = inr []
  ∧ respond format_type quality info
    = match trimmed_description info with
      | inl e => Response (Failed ("Failed to process video: " ++ exn_text e)) 500
      | inr description =>
          ok (DownloadOk (download_video_info info description) []
                         format_type quality)
      end.
Proof.
  intros Hf Hnone.
  assert (Hkept : List.filter (keep format_type) formats = []).
  { clear Hf. induction Hnone as [|f l Hk _ IH]; simpl; [done|].
    simpl in Hk. by rewrite Hk. }
  assert (Hlinks : download_links format_type quality info = inr []).
  { unfold download_links. rewrite Hf. simpl. rewrite dicts_of_map. simpl.
    unfold select_formats. by rewrite Hkept. }
  split; [done|]. unfold respond. by rewrite Hlinks.
Qed.

Lemma no_matching_kind_gives_no_links_witness :
  with_formats catalog_bottom_missing (doc 212) !! "formats"
    = Some (PList (map IDict catalog_bottom_missing))
  ∧ Forall (λ f, keep "mp3" f = false) catalog_bottom_missing
  ∧ download_links "mp3" "best" (with_formats catalog_bottom_missing (doc 212))
    = inr []
  ∧ status_code (respond "mp3" "best" (with_formats catalog_bottom_missing (doc 212)))
    = 200.
Proof.
  assert (Hf : with_formats catalog_bottom_missing (doc 212) !! "formats"
               = Some (PList (map IDict catalog_bottom_missing)))
    by (exact eq_refl).
  assert (Hk : Forall (λ f, keep "mp3" f = false) catalog_bottom_missing).
  { unfold catalog_bottom_missing.
    repeat (apply List.Forall_cons; [exact eq_refl|]).
    apply List.Forall_nil. }
  destruct (no_matching_kind_gives_no_links "mp3" "best" _ _ Hf Hk) as [Hl Hr].
  split_and!; [exact Hf|exact Hk|exact Hl|].
  rewrite Hr. exact eq_refl.
Defined.

(** ** The requested quality *)

Lemma download_links_quality format_type q1 q2 (info : gmap string pyval) :
  is_Some (info !! "formats") →
  download_links format_type q1 info = download_links format_type q2 info.
Proof. intros [v H]. unfold download_links. by rewrite H. Qed.

Lemma respond_quality format_type q1 q2 (info : gmap string pyval) :
  is_Some (info !! "formats") →
  status_code (respond format_type q1 info) = status_code (respond format_type q2 info)
  ∧ erase_requested_quality (resp_body (respond format_type q1 info))
    = erase_requested_quality (resp_body (respond format_type q2 info)).
Proof.
  intros Hf. unfold respond.
  rewrite (download_links_quality format_type q1 q2 info Hf).
  destruct (download_links format_type q2 info) as [e|links]; [done|].
  by destruct (trimmed_description info).
Qed.

(** X16: the requested quality only shapes the options of the
    resolve-mode call; the selector itself never looks at it.  Two
    well-formed requests for the same URL and format whose resolve-mode
    calls are answered with the same catalog get the same status and the
    same body, links included, up to the echoed [requested_quality]; for
    [mp3] even the options of the call do not depend on the quality. *)
Theorem quality_is_only_a_hint (w : World) (req1 req2 : request) (url : string)
    (probed : option (gmap string pyval)) (error : option string)
    (info : gmap string pyval) :
  valid_request w req1 url →
  valid_request w req2 url →
  format_of req1 = format_of req2 →
  get_video_info w url [] = (inr (probed, error), [Call probe_opts url]) →
  nonempty error = false →
  extract_info w [Call probe_opts url]
    (resolve_opts (format_of req1) (quality_of req1)) url = inr info →
  extract_info w [Call probe_opts url]
    (resolve_opts (format_of req2) (quality_of req2)) url = inr info →
  is_Some (info !! "formats") →
  status_code (fst (serve (route_youtube_downloader w) req1))
    = status_code (fst (serve (route_youtube_downloader w) req2))
  ∧ erase_requested_quality
      (resp_body (fst (serve (route_youtube_downloader w) req1)))
    = erase_requested_quality
        (resp_body (fst (serve (route_youtube_downloader w) req2)))
  ∧ resolve_opts "mp3" (quality_of req1) = resolve_opts "mp3" (quality_of req2).
Proof.
  intros Hv1 Hv2 Hfmt Hprobe Herr Hres1 Hres2 Hcat.
  rewrite (downloader_resolved w req1 url Hv1 _ _ _ info Hprobe Herr Hres1).
  rewrite (downloader_resolved w req2 url Hv2 _ _ _ info Hprobe Herr Hres2).
  rewrite <- Hfmt. cbn [fst].
  destruct (respond_quality (format_of req1) (quality_of req1) (quality_of req2)
              info Hcat) as [Hs Hb].
  done.
Qed.

Lemma quality_is_only_a_hint_witness :
  valid_request
    (fake (inr (doc 212)) (inr (with_formats catalog_bottom_missing (doc 212))))
    (sample_request "mp4" "144p") sample_url
  ∧ valid_request
      (fake (inr (doc 212)) (inr (with_formats catalog_bottom_missing (doc 212))))
      (sample_request "mp4" "1080p") sample_url
  ∧ erase_requested_quality
      (resp_body (fst (serve
         (route_youtube_downloader
            (fake (inr (doc 212)) (inr (with_formats catalog_bottom_missing (doc 212)))))
         (sample_request "mp4" "144p"))))
    = erase_requested_quality
        (resp_body (fst (serve
           (route_youtube_downloader
              (fake (inr (doc 212)) (inr (with_formats catalog_bottom_missing (doc 212)))))
           (sample_request "mp4" "1080p")))).
Proof.
  assert (Hv1 := sample_request_valid (inr (doc 212))
                   (inr (with_formats catalog_bottom_missing (doc 212))) "mp4" "144p").
  assert (Hv2 := sample_request_valid (inr (doc 212))
                   (inr (with_formats catalog_bottom_missing (doc 212))) "mp4" "1080p").
  split_and!; [exact Hv1|exact Hv2|].
  refine (proj1 (proj2 (quality_is_only_a_hint _ _ _ sample_url (Some (doc 212)) None
            (with_formats catalog_bottom_missing (doc 212))
            Hv1 Hv2 eq_refl _ eq_refl eq_refl eq_refl _))).
  - exact eq_refl.
  - eexists. reflexivity.
Defined.

(** A request for 144p answered with the whole catalog still gets 1080
    first. *)
Example tier_does_not_filter :
  ∃ video_info,
    fst (serve (route_youtube_downloader
                  (fake (inr (doc 212))
                        (inr (with_formats catalog_bottom_missing (doc 212)))))
               (sample_request "mp4" "144p"))
    = ok (DownloadOk video_info
            (map (link_info "mp4")
               [video "g" 1080; video "e" 720; video "f" 720; video "d" 480;
                video "c" 360])
            "mp4" "144p").
Proof. eexists. exact eq_refl. Qed.
